(** * open_cam.py: the thermal camera pipeline and its window loop

    A shallow embedding of [src/open_cam.py] (classes [Camera] and
    [CameraWindow]) together with the properties checked against it.

    Conventions of the embedding.
    - A numpy [float64] is a specification float of the Standard Library
      ([spec_float]), and the arithmetic of numpy is the binary64 arithmetic
      specified there ([SF64sub], [SF64mul], [SF64div]): every operation
      rounds to nearest even, overflows to an infinity and yields NaN as
      IEEE 754 says.  Module [Binary64] evaluates the rescaling expression
      on the primitive floats of the kernel, to check the frames used as
      examples against the hardware arithmetic.
    - The clocks are rational numbers of seconds.
    - Python exceptions are values of [exn]; code that may raise returns a
      [result].
    - The collaborators outside the file (the MLX90640 driver, the clocks,
      the HighGUI event queue) are inputs of each tick, see [tick_input].
    - Pictures built by OpenCV and SciPy are symbolic: the array they start
      from and the sequence of operations applied to it.  Of the checks
      these libraries make on their arguments, the one the file runs into is
      represented: [cv2.applyColorMap] refuses an array that is not 8-bit.
      [print] and the log file are not represented. *)

From Stdlib Require Import ZArith QArith Qround Qpower Lqa Lia List String Bool.
From Stdlib Require Import Floats Uint63.
Import ListNotations.

Set Warnings "-inexact-float".

Open Scope Z_scope.

(** ** Exceptions *)

Module Py.

(** The class an exception is caught as.  [OtherError] stands for every
    class that none of the handlers of the file names. *)
Inductive exn_class :=
| ValueError | OSError | RuntimeError | AttributeError | TypeError
| ZeroDivisionError | IndexError | OtherError (name : string).

(** An exception instance: its class, its [args] and, when the instance has
    one, its attribute [message].  The built-in exceptions of Python 3 have
    no such attribute. *)
Record exn := mk_exn {
  exn_cls : exn_class;
  exn_args : list string;
  exn_message : option string
}.

(** [cls(arg)] for a built-in class. *)
Definition builtin (c : exn_class) (arg : string) : exn :=
  mk_exn c [arg] None.

Inductive result (A : Type) :=
| Ok (a : A)
| Raise (e : exn).

Arguments Ok {A} a.
Arguments Raise {A} e.

Definition bind {A B} (r : result A) (k : A -> result B) : result B :=
  match r with
  | Ok a => k a
  | Raise e => Raise e
  end.

(** [l[i]] on a Python list: negative indices count from the end. *)
Definition index {A} (l : list A) (i : Z) : result A :=
  let n := Z.of_nat (List.length l) in
  let j := if i <? 0 then i + n else i in
  if (0 <=? j) && (j <? n) then
    match nth_error l (Z.to_nat j) with
    | Some a => Ok a
    | None => Raise (builtin IndexError "list index out of range")
    end
  else Raise (builtin IndexError "list index out of range").

End Py.

Import Py.

Notation "x <- r ;; k" := (bind r (fun x => k))
  (at level 61, r at next level, right associativity).

(** ** numpy on float64 values *)

Module Np.

(** A float64 value: a signed zero, a signed infinity, NaN, or a finite
    number (-1)^s * m * 2^e.  The values a frame holds are built with
    [Fin], [NaN], [PInf] and [NInf] below. *)
Definition float64 : Type := spec_float.

Definition NaN : float64 := S754_nan.
Definition PInf : float64 := S754_infinity false.
Definition NInf : float64 := S754_infinity true.

Definition Qltb (a b : Q) : bool := negb (Qle_bool b a).

(** The integer [n] as a float whose mantissa has not been rounded. *)
Definition unrounded (n : Z) : float64 :=
  match n with
  | Z0 => S754_zero false
  | Zpos p => S754_finite false p 0
  | Zneg p => S754_finite true p 0
  end.

(** The float64 nearest to the rational [q]: the value a decimal literal
    such as 27.3 denotes.  The division rounds once, to nearest even. *)
Definition Fin (q : Q) : float64 :=
  SFdiv prec emax (unrounded (Qnum q)) (S754_finite false (Qden q) 0).

(** The largest finite float64, (2^53 - 1) * 2^971. *)
Definition max_float : float64 := S754_finite false 9007199254740991 971.

Definition is_nan (v : float64) : bool :=
  match v with S754_nan => true | _ => false end.

Definition is_zero (v : float64) : bool :=
  match v with S754_zero _ => true | _ => false end.

Definition is_finite (v : float64) : bool :=
  match v with S754_zero _ | S754_finite _ _ _ => true | _ => false end.

(** The operators [-], [*] and [/] of numpy on float64: binary64
    arithmetic.  Division does not raise: a zero divisor gives NaN or an
    infinity (with a RuntimeWarning). *)
Definition fsub (a b : float64) : float64 := SF64sub a b.
Definition fmul (a b : float64) : float64 := SF64mul a b.
Definition fdiv (a b : float64) : float64 := SF64div a b.

(** [np.minimum] and [np.maximum]: a NaN operand wins. *)
Definition minimum (a b : float64) : float64 :=
  if is_nan a || is_nan b then NaN
  else if SFltb b a then b else a.

Definition maximum (a b : float64) : float64 :=
  if is_nan a || is_nan b then NaN
  else if SFltb a b then b else a.

Definition reduce (op : float64 -> float64 -> float64) (a : list float64)
  : result float64 :=
  match a with
  | [] => Raise (builtin ValueError
            "zero-size array to reduction operation which has no identity")
  | x :: xs => Ok (fold_left op xs x)
  end.

(** [np.min] and [np.max] of a one-dimensional array. *)
Definition min (a : list float64) : result float64 := reduce minimum a.
Definition max (a : list float64) : result float64 := reduce maximum a.

(** [np.nan_to_num] with its default arguments, on one element. *)
Definition nan_to_num1 (v : float64) : float64 :=
  match v with
  | S754_nan => S754_zero false
  | S754_infinity false => max_float
  | S754_infinity true => SFopp max_float
  | _ => v
  end.

(** [np.nan_to_num(a)] returns a new array. *)
Definition nan_to_num (a : list float64) : list float64 := map nan_to_num1 a.

(** The integral part of a number, rounding toward zero; NaN and the
    infinities have none. *)
Definition integral_part (v : float64) : option Z :=
  match v with
  | S754_zero _ => Some 0
  | S754_finite s m e => Some (cond_Zopp s (Z.shiftl (Zpos m) e))
  | _ => None
  end.

(** The conversion float64 -> uint8 of [np.uint8(array)] on one element is
    the C cast: the fractional part is discarded, so a number in [0, 256)
    becomes its floor, and NaN becomes 0.  Outside that interval C leaves
    the cast undefined; it is taken as x86-64 computes it, through a signed
    32-bit integer: the integral part modulo 256 when it fits, 0
    otherwise. *)
Definition uint8 (v : float64) : Z :=
  match integral_part v with
  | Some t => if (- 2 ^ 31 <=? t) && (t <? 2 ^ 31) then t mod 256 else 0
  | None => 0
  end.

(** Assigning [a.shape = (rows, cols)] keeps the data in place and raises
    ValueError when the sizes do not agree. *)
Definition set_shape {A} (a : list A) (rows cols : nat) : result (list A) :=
  if Nat.eqb (List.length a) (rows * cols) then Ok a
  else Raise (builtin ValueError "cannot reshape array").

End Np.

Import Np.

(** ** Arrays and pictures *)

(** The two kinds of array [__pull_raw_image] hands on: the rescaled grid
    (dtype uint8, shape (24, 32), data in row-major order) and the float64
    buffer of shape (768,) itself. *)
Inductive array :=
| U8Grid (px : list Z)
| F64Buf (buf : list float64).

(** Text drawn by [cv2.putText]: a plain string, or an f-string holding one
    formatted float ([Fmt "Tmin: " "+.1f" v] is [f'Tmin: {v:+.1f}']). *)
Inductive text :=
| Str (s : string)
| Fmt (prefix spec : string) (v : float64).

Definition point : Type := Z * Z.
Definition bgr : Type := Z * Z * Z.

(** The operations of SciPy and OpenCV the file applies to a picture.  The
    font of [PutText] is always FONT_HERSHEY_SIMPLEX. *)
Inductive draw :=
| Zoom (factor : Z)
| ApplyColorMap (cmap : string)
| Resize (width height : Z) (interpolation : Z)
| Flip (flip_code : Z)
| BilateralFilter (d sigma_color sigma_space : Z)
| PutText (t : text) (org : point) (font_scale : Q) (color : bgr)
    (thickness : Z)
| Rectangle (pt1 pt2 : point) (color : bgr) (thickness : Z).

(** A picture: the array it was made from and what was applied to it,
    oldest operation first. *)
Record picture := mk_picture {
  source : array;
  ops : list draw
}.

Definition apply (op : draw) (p : picture) : picture :=
  mk_picture (source p) (ops p ++ [op]).

(** ** The sensor *)

(** What one call [mlx.getFrame(buf)] does to the buffer it is given: it
    fills it with a frame and returns, or it raises after having written
    some of the entries (the driver computes a frame in two halves). *)
Inductive getFrame_outcome :=
| Filled (frame : list float64)
| Failed (e : exn) (written : list (nat * float64)).

(** [buf[i] = v]; the driver only writes inside the buffer. *)
Fixpoint write_at {A} (i : nat) (v : A) (buf : list A) : list A :=
  match buf, i with
  | [], _ => []
  | _ :: t, O => v :: t
  | h :: t, S j => h :: write_at j v t
  end.

Definition write_all {A} (ws : list (nat * A)) (buf : list A) : list A :=
  fold_left (fun b w => write_at (fst w) (snd w) b) ws buf.

(** The buffer after a whole frame was written into it, entry by entry. *)
Definition store {A} (buf frame : list A) : list A :=
  firstn (List.length buf) frame ++ skipn (List.length frame) buf.

(** ** class Camera *)

Module Camera.

Definition INTER_NEAREST := 0.
Definition INTER_LINEAR := 1.
Definition INTER_CUBIC := 2.
Definition INTER_AREA := 3.
Definition INTER_LANCZOS4 := 4.

Definition colormap_list : list string :=
  ["jet"; "bwr"; "seismic"; "coolwarm"; "PiYG_r"; "tab10"; "tab20";
   "gnuplot2"; "brg"]%string.

Definition interpolation_list : list Z :=
  [INTER_NEAREST; INTER_LINEAR; INTER_AREA; INTER_CUBIC; INTER_LANCZOS4; 5; 6].

Definition interpolation_labels_list : list string :=
  ["Nearest"; "Inter Linear"; "Inter Area"; "Inter Cubic"; "Inter Lanczos4";
   "Pure Scipy"; "Scipy/CV2 Mixed"]%string.

(** The attributes of the class.  [blank_image] is one array object: every
    use of [self.blank_image] is a reference to it, never a copy. *)
Record state := mk {
  use_smoothing_filter : bool;
  colormap_index : Z;
  interpolation_index : Z;
  current_frame_processed : bool;
  blank_image : list float64;
  timestamp : Q;
  temp_min : option float64;
  temp_max : option float64
}.

Definition with_colormap_index (v : Z) (s : state) : state :=
  mk (use_smoothing_filter s) v (interpolation_index s)
     (current_frame_processed s) (blank_image s) (timestamp s)
     (temp_min s) (temp_max s).

Definition with_interpolation_index (v : Z) (s : state) : state :=
  mk (use_smoothing_filter s) (colormap_index s) v
     (current_frame_processed s) (blank_image s) (timestamp s)
     (temp_min s) (temp_max s).

Definition with_current_frame_processed (v : bool) (s : state) : state :=
  mk (use_smoothing_filter s) (colormap_index s) (interpolation_index s)
     v (blank_image s) (timestamp s) (temp_min s) (temp_max s).

Definition with_blank_image (v : list float64) (s : state) : state :=
  mk (use_smoothing_filter s) (colormap_index s) (interpolation_index s)
     (current_frame_processed s) v (timestamp s) (temp_min s) (temp_max s).

Definition with_timestamp (v : Q) (s : state) : state :=
  mk (use_smoothing_filter s) (colormap_index s) (interpolation_index s)
     (current_frame_processed s) (blank_image s) v (temp_min s) (temp_max s).

Definition with_temp_min (v : option float64) (s : state) : state :=
  mk (use_smoothing_filter s) (colormap_index s) (interpolation_index s)
     (current_frame_processed s) (blank_image s) (timestamp s) v (temp_max s).

Definition with_temp_max (v : option float64) (s : state) : state :=
  mk (use_smoothing_filter s) (colormap_index s) (interpolation_index s)
     (current_frame_processed s) (blank_image s) (timestamp s) (temp_min s) v.

(** The class attributes at start-up; [clock] is the [time.time()] of the
    class definition. *)
Definition init (clock : Q) : state :=
  mk true 0 3 false (repeat (Fin 0) (24 * 32)) clock None None.

Definition __colormap (self : state) : result string :=
  index colormap_list (colormap_index self).

Definition __interpolation (self : state) : result Z :=
  index interpolation_list (interpolation_index self).

Definition __interpolation_label (self : state) : result string :=
  index interpolation_labels_list (interpolation_index self).

Definition cycle_colormap (self : state) : state :=
  let self := with_colormap_index (colormap_index self + 1) self in
  if colormap_index self >=? Z.of_nat (List.length colormap_list)
  then with_colormap_index 0 self
  else self.

Definition cycle_interpolation (self : state) : state :=
  let self := with_interpolation_index (interpolation_index self + 1) self in
  if interpolation_index self >=? Z.of_nat (List.length interpolation_list)
  then with_interpolation_index 0 self
  else self.

(** The float64 array [(f - Tmin) * 255 / (Tmax - Tmin)] of
    [__temps_to_rescaled_uints], before the cast. *)
Definition rescaled (f : list float64) (Tmin Tmax : float64) : list float64 :=
  let f := nan_to_num f in
  let divisor := fsub Tmax Tmin in
  map (fun v => fdiv v divisor)
    (map (fun v => fmul v (Fin 255))
      (map (fun v => fsub v Tmin) f)).

Definition __temps_to_rescaled_uints (f : list float64) (Tmin Tmax : float64)
  : result (list Z) :=
  let norm := map uint8 (rescaled f Tmin Tmax) in
  set_shape norm 24 32.

(** The two [except] clauses of [__pull_raw_image]: both hand on the
    object [self.blank_image]. *)
Definition pull_except (self : state) (e : exn) : state * result array :=
  match exn_cls e with
  | ValueError | OSError => (self, Ok (F64Buf (blank_image self)))
  | _ => (self, Raise e)
  end.

Definition __pull_raw_image (self : state) (o : getFrame_outcome)
  : state * result array :=
  (* image = self.blank_image: the driver writes into the shared array *)
  match o with
  | Failed e written =>
      let self := with_blank_image (write_all written (blank_image self)) self in
      pull_except self e
  | Filled frame =>
      let self := with_blank_image (store (blank_image self) frame) self in
      let image := blank_image self in
      match Np.min image with
      | Raise e => pull_except self e
      | Ok mn =>
          let self := with_temp_min (Some mn) self in
          match Np.max image with
          | Raise e => pull_except self e
          | Ok mx =>
              let self := with_temp_max (Some mx) self in
              match __temps_to_rescaled_uints image mn mx with
              | Raise e => pull_except self e
              | Ok norm =>
                  (with_current_frame_processed false self, Ok (U8Grid norm))
              end
          end
      end
  end.

(** The exception OpenCV raises when a call refuses its arguments. *)
Definition cv2_error (msg : string) : exn :=
  builtin (OtherError "cv2.error") msg.

(** [cv2.applyColorMap(src, colormap)]: [src] has to be an 8-bit array;
    the float64 buffer is refused. *)
Definition applyColorMap (src : picture) (cmap : string) : result picture :=
  match source src with
  | U8Grid _ => Ok (apply (ApplyColorMap cmap) src)
  | F64Buf _ =>
      Raise (cv2_error
        "cv::ColorMap only supports source images of type CV_8UC1 or CV_8UC3")
  end.

Definition __process_raw_image (self : state) (image : array)
  : result picture :=
  let image := mk_picture image [] in
  processed_image <-
    (if interpolation_index self =? 5 then
       let processed_image := apply (Zoom 25) image in
       cmap <- __colormap self ;;
       applyColorMap processed_image cmap
     else if interpolation_index self =? 6 then
       let processed_image := apply (Zoom 10) image in
       cmap <- __colormap self ;;
       processed_image <- applyColorMap processed_image cmap ;;
       Ok (apply (Resize 800 600 INTER_CUBIC) processed_image)
     else
       cmap <- __colormap self ;;
       processed_image <- applyColorMap image cmap ;;
       interpolation <- __interpolation self ;;
       Ok (apply (Resize 800 600 interpolation) processed_image)) ;;
  let processed_image := apply (Flip 1) processed_image in
  Ok (if use_smoothing_filter self
      then apply (BilateralFilter 15 80 80) processed_image
      else processed_image).

(** [f'{v:+.1f}'] raises TypeError when [v] is None. *)
Definition format_temp (prefix : string) (v : option float64) : result text :=
  match v with
  | Some t => Ok (Fmt prefix "+.1f" t)
  | None => Raise (builtin TypeError
              "unsupported format string passed to NoneType.__format__")
  end.

(** The loop [for line in lines: cv2.putText(...); y += shiftY]. *)
Fixpoint put_lines (lines : list text) (x y shiftY : Z) (image : picture)
  : picture :=
  match lines with
  | [] => image
  | line :: rest =>
      put_lines rest x (y + shiftY) shiftY
        (apply (PutText line (x, y) (6 # 10) (255, 255, 255) 2) image)
  end.

(** [now] is the [time.time()] read for the FPS line. *)
Definition __add_image_text (self : state) (image : picture) (now : Q)
  : result picture :=
  l1 <- format_temp "Tmin: " (temp_min self) ;;
  l2 <- format_temp "Tmax: " (temp_max self) ;;
  label <- __interpolation_label self ;;
  cmap <- __colormap self ;;
  let elapsed := (now - timestamp self)%Q in
  if Qeq_bool elapsed 0
  then Raise (builtin ZeroDivisionError "float division by zero")
  else
    let lines :=
      [l1; l2;
       Str ("Interp.: " ++ label);
       Str ("Colormap: " ++ cmap);
       Str ("Filtered: " ++ if use_smoothing_filter self then "True" else "False");
       Fmt "FPS: " ".1f" (Fin (1 / elapsed))] in
    Ok (put_lines lines 30 30 22 image).

(** [now_text] and [now_stamp] are the two readings of [time.time()]. *)
Definition generate_frame_image (self : state) (o : getFrame_outcome)
    (now_text now_stamp : Q) : state * result picture :=
  let (self, r) := __pull_raw_image self o in
  match r with
  | Raise e => (self, Raise e)
  | Ok image =>
      match (image <- __process_raw_image self image ;;
             __add_image_text self image now_text) with
      | Raise e => (self, Raise e)
      | Ok image =>
          let self := with_timestamp now_stamp self in
          let self := with_current_frame_processed true self in
          (self, Ok image)
      end
  end.

End Camera.

(** ** class CameraWindow *)

Module CameraWindow.

(** The bound methods stored in [Button.callback]. *)
Inductive action :=
| QueueSaveSnapshot
| CycleColormap
| CycleInterpolation
| Exit.

Module Button.

Record t := mk {
  text : string;
  start : point;
  end_ : point;
  callback : action
}.

End Button.

(** The attributes of the window, and what it has done to the outside:
    [written] lists the calls of [cv2.imwrite] and [shown] those of
    [cv2.imshow], oldest first, each with the picture as it was then. *)
Record state := mk {
  camera : Camera.state;
  is_exit_requested : bool;
  current_image : option picture;
  queue_save_snapshot : bool;
  snapshot_saved_at : option Q;
  buttons : list Button.t;
  written : list (string * option picture);
  shown : list (option picture)
}.

Definition with_camera (v : Camera.state) (s : state) : state :=
  mk v (is_exit_requested s) (current_image s) (queue_save_snapshot s)
     (snapshot_saved_at s) (buttons s) (written s) (shown s).

Definition with_is_exit_requested (v : bool) (s : state) : state :=
  mk (camera s) v (current_image s) (queue_save_snapshot s)
     (snapshot_saved_at s) (buttons s) (written s) (shown s).

Definition with_current_image (v : option picture) (s : state) : state :=
  mk (camera s) (is_exit_requested s) v (queue_save_snapshot s)
     (snapshot_saved_at s) (buttons s) (written s) (shown s).

Definition with_queue_save_snapshot (v : bool) (s : state) : state :=
  mk (camera s) (is_exit_requested s) (current_image s) v
     (snapshot_saved_at s) (buttons s) (written s) (shown s).

Definition with_snapshot_saved_at (v : option Q) (s : state) : state :=
  mk (camera s) (is_exit_requested s) (current_image s)
     (queue_save_snapshot s) v (buttons s) (written s) (shown s).

Definition with_buttons (v : list Button.t) (s : state) : state :=
  mk (camera s) (is_exit_requested s) (current_image s)
     (queue_save_snapshot s) (snapshot_saved_at s) v (written s) (shown s).

Definition with_written (v : list (string * option picture)) (s : state)
  : state :=
  mk (camera s) (is_exit_requested s) (current_image s)
     (queue_save_snapshot s) (snapshot_saved_at s) (buttons s) v (shown s).

Definition with_shown (v : list (option picture)) (s : state) : state :=
  mk (camera s) (is_exit_requested s) (current_image s)
     (queue_save_snapshot s) (snapshot_saved_at s) (buttons s) (written s) v.

(** A drawing call on [self.current_image] changes that array in place. *)
Definition draw_on_current (op : draw) (self : state) : state :=
  with_current_image (option_map (apply op) (current_image self)) self.

Definition __add_button (txt : string) (st : point) (width height : Z)
    (cb : action) (self : state) : state :=
  let button := Button.mk txt st (fst st + width, snd st + height) cb in
  with_buttons (buttons self ++ [button]) self.

(** [CameraWindow(camera)]; [class_buttons] is the list object bound to
    the class attribute [buttons], which [__add_button] appends to. *)
Definition init (class_buttons : list Button.t) (camera : Camera.state) : state :=
  let self := mk camera false None false None class_buttons [] [] in
  let self := __add_button "Save" (0, 550) 80 50 QueueSaveSnapshot self in
  let self := __add_button "Colormap" (90, 550) 130 50 CycleColormap self in
  let self :=
    __add_button "Interpolation" (230, 550) 150 50 CycleInterpolation self in
  __add_button "Exit" (390, 550) 70 50 Exit self.

Definition __queue_save_snapshot (self : state) : state :=
  with_queue_save_snapshot true self.

Definition __exit (self : state) : state :=
  with_is_exit_requested true self.

(** [button.callback()]. *)
Definition call (cb : action) (self : state) : state :=
  match cb with
  | QueueSaveSnapshot => __queue_save_snapshot self
  | CycleColormap => with_camera (Camera.cycle_colormap (camera self)) self
  | CycleInterpolation =>
      with_camera (Camera.cycle_interpolation (camera self)) self
  | Exit => __exit self
  end.

(** The condition of the [if] in [__process_click_input]. *)
Definition hit (button : Button.t) (x y : Z) : bool :=
  (x >? fst (Button.start button)) && (y >? snd (Button.start button))
  && (x <? fst (Button.end_ button)) && (y <? snd (Button.end_ button)).

(** The loop [for button in self.buttons] of [__process_click_input], over
    any way [invoke] of running a callback on a state [S]. *)
Fixpoint click_loop {S} (invoke : action -> S -> S) (bs : list Button.t)
    (x y : Z) (s : S) : S :=
  match bs with
  | [] => s
  | button :: rest =>
      let s := if hit button x y then invoke (Button.callback button) s else s in
      click_loop invoke rest x y s
  end.

Definition EVENT_LBUTTONUP := 4.

Definition __process_click_input (self : state) (event x y : Z) : state :=
  if negb (event =? EVENT_LBUTTONUP) then self
  else click_loop call (buttons self) x y self.

(** The callbacks one pointer event invokes, in the order of the calls. *)
Definition invoked (bs : list Button.t) (event x y : Z) : list action :=
  if negb (event =? EVENT_LBUTTONUP) then []
  else click_loop (fun cb log => log ++ [cb]) bs x y [].

Fixpoint draw_buttons_loop (bs : list Button.t) (self : state) : state :=
  match bs with
  | [] => self
  | button :: rest =>
      let text_position :=
        (fst (Button.start button) + 20, snd (Button.start button) + 30) in
      let self :=
        draw_on_current
          (Rectangle (Button.start button) (Button.end_ button) (200, 200, 200) (-1)) self in
      let self :=
        draw_on_current
          (PutText (Str (Button.text button)) text_position (6 # 10) (0, 0, 0) 2)
          self in
      draw_buttons_loop rest self
  end.

Definition __draw_buttons (self : state) : state :=
  draw_buttons_loop (buttons self) self.

(** [stamp] is the formatted [dt.datetime.now()] and [now] the reading of
    [time.monotonic()]. *)
Definition __save_snapshot (self : state) (stamp : string) (now : Q) : state :=
  let filename := ("./thermal_snapshots/" ++ "snapshot_" ++ stamp ++ ".jpg")%string in
  let self :=
    with_written (written self ++ [(filename, current_image self)]) self in
  let self := with_snapshot_saved_at (Some now) self in
  with_queue_save_snapshot false self.

Definition notification : draw :=
  PutText (Str "Snapshot Saved!") (30, 500) (8 # 10) (255, 255, 255) 2.

(** [now] is the reading of [time.monotonic()], taken only when
    [snapshot_saved_at] is not None. *)
Definition __update_window (self : state) (now : Q) : state :=
  let self :=
    match snapshot_saved_at self with
    | Some saved_at =>
        if Qltb (now - saved_at) 1 then draw_on_current notification self
        else with_snapshot_saved_at None self
    | None => self
    end in
  with_shown (shown self ++ [current_image self]) self.

(** [pointer] lists the pointer events HighGUI delivers to the callback
    during [cv2.waitKey(1)], and [key] is what [waitKey] returns. *)
Definition __process_events (self : state) (pointer : list (Z * Z * Z))
    (key : Z) : state :=
  let self :=
    fold_left (fun s ev =>
                 __process_click_input s (fst (fst ev)) (snd (fst ev)) (snd ev))
              pointer self in
  let key := Z.land key 255 in
  if key =? 27 then __exit self else self.

(** What the outside supplies during one iteration of the loop. *)
Record tick_input := mk_input {
  sensor : getFrame_outcome;
  time_text : Q;
  time_stamp : Q;
  save_stamp : string;
  monotonic_save : Q;
  monotonic_window : Q;
  pointer : list (Z * Z * Z);
  key : Z
}.

(** The body of the [try] in [start]. *)
Definition try_body (self : state) (i : tick_input) : state * result unit :=
  let (cam, r) :=
    Camera.generate_frame_image (camera self) (sensor i)
      (time_text i) (time_stamp i) in
  let self := with_camera cam self in
  match r with
  | Raise e => (self, Raise e)
  | Ok image =>
      let self := with_current_image (Some image) self in
      let self :=
        if queue_save_snapshot self
        then __save_snapshot self (save_stamp i) (monotonic_save i)
        else __draw_buttons self in
      let self := __update_window self (monotonic_window i) in
      let self := __process_events self (pointer i) (key i) in
      (self, Ok tt)
  end.

(** The clause [except RuntimeError as error].  Reading [error.message]
    raises AttributeError when the instance has no such attribute. *)
Definition except_RuntimeError (error : exn) : result unit :=
  match exn_message error with
  | None =>
      Raise (builtin AttributeError
               "'RuntimeError' object has no attribute 'message'")
  | Some message =>
      if String.eqb message "Too many retries" then Ok tt (* continue *)
      else Raise error
  end.

(** One iteration of the [while] loop: [Ok] goes on to the next test of
    the loop condition, [Raise] leaves [start]. *)
Definition tick (self : state) (i : tick_input) : state * result unit :=
  let (self, r) := try_body self i in
  match r with
  | Ok _ => (self, Ok tt)
  | Raise e =>
      match exn_cls e with
      | RuntimeError => (self, except_RuntimeError e)
      | _ => (self, Raise e)
      end
  end.

(** How a run of [start] over finitely many inputs ends. *)
Inductive ending :=
| Returned
| Raised (e : exn)
| Running.

Fixpoint start (self : state) (inputs : list tick_input) : state * ending :=
  if is_exit_requested self then (self, Returned)
  else
    match inputs with
    | [] => (self, Running)
    | i :: rest =>
        let (self, r) := tick self i in
        match r with
        | Ok _ => start self rest
        | Raise e => (self, Raised e)
        end
    end.

End CameraWindow.

Import CameraWindow.

(** ** The words of the specification *)

(** [round]: to the nearest integer, a tie going to the even one. *)
Definition round_half_even (q : Q) : Z :=
  let f := Qfloor q in
  let r := (q - inject_Z f)%Q in
  if Qltb r (1 # 2) then f
  else if Qltb (1 # 2) r then f + 1
  else if Z.even f then f else f + 1.

(** The pixel the specification gives for a sample:
    [round((value - min) * 255 / (max - min))]. *)
Definition rounded_pixel (value mn mx : Q) : Z :=
  round_half_even ((value - mn) * 255 / (mx - mn)).

(** The rational number a float64 stands for (0 for NaN and the
    infinities, which stand for none). *)
Definition value (v : float64) : Q :=
  match v with
  | S754_finite s m e => (inject_Z (cond_Zopp s (Zpos m)) * 2 ^ e)%Q
  | _ => 0%Q
  end.

(** The quotient the code computes for a sample once its NaN and infinities
    are replaced: [(v - Tmin) * 255 / (Tmax - Tmin)] in binary64. *)
Definition quotient (v Tmin Tmax : float64) : float64 :=
  fdiv (fmul (fsub v Tmin) (Fin 255)) (fsub Tmax Tmin).

(** The frame whose samples are 0.0, 1.0, ..., 767.0. *)
Definition ramp_samples : list Q :=
  map (fun i => inject_Z (Z.of_nat i)) (seq 0 768).

Definition ramp : list float64 := map Fin ramp_samples.

(** A frame with every NaN sample replaced by 0. *)
Definition zero_nans (f : list float64) : list float64 :=
  map (fun v => if is_nan v then Fin 0 else v) f.

(** A frame of a room: one sample at 27.3, one at 23.2 and the others at
    15.0 degrees. *)
Definition room : list float64 :=
  Fin (273 # 10) :: Fin (232 # 10) :: repeat (Fin 15) 766.

(** A frame with one NaN sample among samples at 20.0 degrees. *)
Definition nan_frame : list float64 := NaN :: repeat (Fin 20) 767.

(** A frame whose samples are all [v]. *)
Definition uniform (v : float64) : list float64 := repeat v 768.

(** The order the specification gives for the two SciPy selections: the
    colormap is applied before any zoom or resize. *)
Fixpoint colormap_before_interpolation (l : list draw) : bool :=
  match l with
  | [] => false
  | ApplyColorMap _ :: _ => true
  | Zoom _ :: _ | Resize _ _ _ :: _ => false
  | _ :: rest => colormap_before_interpolation rest
  end.

(** The handler of pointer releases as the specification words it: the
    first button that contains the point has its action invoked, and the
    search stops there. *)
Fixpoint first_match (bs : list CameraWindow.Button.t) (x y : Z)
  : list CameraWindow.action :=
  match bs with
  | [] => []
  | button :: rest =>
      if CameraWindow.hit button x y
      then [CameraWindow.Button.callback button]
      else first_match rest x y
  end.

(** ** The rescaling expression in binary64 *)

Module Binary64.

Definition of_Z (k : Z) : float := PrimFloat.of_uint63 (Uint63.of_Z k).

(** [(value - Tmin) * 255 / (Tmax - Tmin)], every operation rounded as
    IEEE 754 binary64 rounds it. *)
Definition quotient (value Tmin Tmax : float) : float :=
  ((value - Tmin) * 255 / (Tmax - Tmin))%float.

(** [k <= q < k + 1]: the cast of [q] to an integer type gives [k]. *)
Definition integral_part_is (q : float) (k : Z) : bool :=
  PrimFloat.leb (of_Z k) q && PrimFloat.ltb q (of_Z (k + 1)).

End Binary64.

(** ** What a picture shows *)

(** The operations [__draw_buttons] applies for a list of buttons. *)
Definition button_overlay (bs : list CameraWindow.Button.t) : list draw :=
  flat_map
    (fun button =>
       [Rectangle (CameraWindow.Button.start button)
          (CameraWindow.Button.end_ button) (200, 200, 200) (-1);
        PutText (Str (CameraWindow.Button.text button))
          (fst (CameraWindow.Button.start button) + 20,
           snd (CameraWindow.Button.start button) + 30)
          (6 # 10) (0, 0, 0) 2])
    bs.

Definition has_buttons (bs : list CameraWindow.Button.t) (p : picture) : Prop :=
  exists op, In op (button_overlay bs) /\ In op (ops p).

Definition has_notification (p : picture) : Prop :=
  In CameraWindow.notification (ops p).

(** [p] with further operations applied. *)
Definition drawn_over (p : picture) (more : list draw) : picture :=
  mk_picture (source p) (ops p ++ more).

(** The operations [generate_frame_image] can apply: the transforms of
    SciPy and OpenCV, and white text above row 500. *)
Definition frame_op (op : draw) : bool :=
  match op with
  | Rectangle _ _ _ _ => false
  | PutText _ org _ color _ => (snd org <? 500) && (fst (fst color) =? 255)
  | _ => true
  end.

(** The point (x, y) is strictly inside the rectangle of a button. *)
Definition strictly_inside (button : CameraWindow.Button.t) (x y : Z) : Prop :=
  fst (CameraWindow.Button.start button) < x
  /\ x < fst (CameraWindow.Button.end_ button)
  /\ snd (CameraWindow.Button.start button) < y
  /\ y < snd (CameraWindow.Button.end_ button).

(** The closed rectangle of a button, border included. *)
Definition covers (button : CameraWindow.Button.t) (x y : Z) : Prop :=
  fst (CameraWindow.Button.start button) <= x <= fst (CameraWindow.Button.end_ button)
  /\ snd (CameraWindow.Button.start button) <= y <= snd (CameraWindow.Button.end_ button).

(** The window [main] opens, and the four buttons it has. *)
Definition main_window (clock : Q) : CameraWindow.state :=
  CameraWindow.init [] (Camera.init clock).

Definition default_buttons : list CameraWindow.Button.t :=
  CameraWindow.buttons (main_window 0).

(** A tick at time [t] (on every clock) in which the sensor delivers the
    ramp frame, the pointer events [events] arrive and no key is pressed. *)
Definition ramp_tick (t : Q) (events : list (Z * Z * Z))
  : CameraWindow.tick_input :=
  CameraWindow.mk_input (Filled ramp) t t "2024-05-01_12-00-00" t t events (-1).

(** A release of the pointer inside the Save button. *)
Definition release_on_save : Z * Z * Z := (CameraWindow.EVENT_LBUTTONUP, 40, 575).

(** The exception the MLX90640 driver raises when the bus gives up: a
    plain [RuntimeError('Too many retries')]. *)
Definition too_many_retries : exn := builtin RuntimeError "Too many retries".

(** A tick at time [t] in which the driver raises [e] before it has written
    anything. *)
Definition failing_tick (t : Q) (e : exn) : CameraWindow.tick_input :=
  CameraWindow.mk_input (Failed e []) t t "2024-05-01_12-00-00" t t [] (-1).

(** The exception [cv2.applyColorMap] raises on the float64 buffer. *)
Definition colormap_refusal : exn :=
  Camera.cv2_error
    "cv::ColorMap only supports source images of type CV_8UC1 or CV_8UC3".

(** A fault of the I2C bus as the driver reports it. *)
Definition io_fault : exn := builtin OSError "[Errno 5] Input/output error".

(** The picture a result holds. *)
Definition the_picture (r : result picture) : picture :=
  match r with
  | Ok p => p
  | Raise _ => mk_picture (F64Buf []) []
  end.

(** The optional last step of [__process_raw_image]. *)
Definition smoothing (cam : Camera.state) : list draw :=
  if Camera.use_smoothing_filter cam then [BilateralFilter 15 80 80] else [].

(** [s'] differs from [s] at most in the camera and in the two flags:
    the picture, the time of the save, what was written and shown and the
    buttons are the same. *)
Definition same_display (s s' : state) : Prop :=
  current_image s' = current_image s
  /\ snapshot_saved_at s' = snapshot_saved_at s
  /\ written s' = written s
  /\ shown s' = shown s
  /\ buttons s' = buttons s.

(** The state of the window when [generate_frame_image] has returned
    [img] and left the camera as [cam]. *)
Definition generated (self : state) (cam : Camera.state) (img : picture)
  : state :=
  with_current_image (Some img) (with_camera cam self).

(** ** States and inputs the loop is run on *)

(** Both selections are inside their catalogues. *)
Definition in_range (cam : Camera.state) : Prop :=
  0 <= Camera.colormap_index cam
       < Z.of_nat (List.length Camera.colormap_list)
  /\ 0 <= Camera.interpolation_index cam
          < Z.of_nat (List.length Camera.interpolation_list).

(** The shared buffer has the size of a frame. *)
Definition sized (cam : Camera.state) : Prop :=
  List.length (Camera.blank_image cam) = 768%nat.

(** The classes the [except] clauses of [__pull_raw_image] name. *)
Definition caught (e : exn) : Prop :=
  exn_cls e = ValueError \/ exn_cls e = OSError.

(** What the driver does in a tick the loop gets through: it delivers a
    whole frame. *)
Definition absorbed (o : getFrame_outcome) : Prop :=
  match o with
  | Filled frame => List.length frame = 768%nat
  | Failed _ _ => False
  end.

(** Inputs whose sensor outcomes are absorbed and whose clock moves: the
    [time.time()] read for the FPS line differs from the time stamp [t0]
    left by the tick before. *)
Fixpoint steady (t0 : Q) (inputs : list tick_input) : Prop :=
  match inputs with
  | [] => True
  | i :: rest =>
      absorbed (sensor i) /\ ~ (time_text i == t0)%Q
      /\ steady (time_stamp i) rest
  end.

(** The input [i] with other pointer events and another key. *)
Definition with_events (evs : list (Z * Z * Z)) (k : Z) (i : tick_input)
  : tick_input :=
  mk_input (sensor i) (time_text i) (time_stamp i) (save_stamp i)
    (monotonic_save i) (monotonic_window i) evs k.

(** The actions a release at (x, y) invokes in the window of [main], read
    off the four rectangles. *)
Definition click_map (x y : Z) : list action :=
  if (550 <? y) && (y <? 600) then
    if (0 <? x) && (x <? 80) then [QueueSaveSnapshot]
    else if (90 <? x) && (x <? 220) then [CycleColormap]
    else if (230 <? x) && (x <? 380) then [CycleInterpolation]
    else if (390 <? x) && (x <? 460) then [Exit]
    else []
  else [].

(** How many operations of a picture satisfy [f]. *)
Definition count (f : draw -> bool) (p : picture) : nat :=
  List.length (filter f (ops p)).

Definition is_colormap (op : draw) : bool :=
  match op with ApplyColorMap _ => true | _ => false end.

Definition is_flip (op : draw) : bool :=
  match op with Flip _ => true | _ => false end.

Definition is_filter (op : draw) : bool :=
  match op with BilateralFilter _ _ _ => true | _ => false end.

Definition is_text (op : draw) : bool :=
  match op with PutText _ _ _ _ _ => true | _ => false end.

(** ** What the camera holds and what is drawn on a frame *)

(** What the callbacks leave alone in the camera. *)
Definition same_readings (c c' : Camera.state) : Prop :=
  Camera.blank_image c' = Camera.blank_image c
  /\ Camera.temp_min c' = Camera.temp_min c
  /\ Camera.temp_max c' = Camera.temp_max c
  /\ Camera.timestamp c' = Camera.timestamp c
  /\ Camera.use_smoothing_filter c' = Camera.use_smoothing_filter c.

(** The camera after [__pull_raw_image] has read [frame] with extremes
    [mn] and [mx]. *)
Definition after_read (cam : Camera.state) (frame : list float64)
    (mn mx : float64) : Camera.state :=
  Camera.with_current_frame_processed false
    (Camera.with_temp_max (Some mx)
       (Camera.with_temp_min (Some mn) (Camera.with_blank_image frame cam))).

(** The six lines [__add_image_text] writes. *)
Definition text_lines (cam : Camera.state) (mn mx : float64)
    (label cmap : string) (now : Q) : list text :=
  [Fmt "Tmin: " "+.1f" mn;
   Fmt "Tmax: " "+.1f" mx;
   Str ("Interp.: " ++ label);
   Str ("Colormap: " ++ cmap);
   Str ("Filtered: " ++ if Camera.use_smoothing_filter cam
                        then "True" else "False");
   Fmt "FPS: " ".1f" (Fin (1 / (now - Camera.timestamp cam)))].

(** The [cv2.putText] calls of the loop over the lines. *)
Fixpoint line_ops (lines : list text) (x y shiftY : Z) : list draw :=
  match lines with
  | [] => []
  | line :: rest =>
      PutText line (x, y) (6 # 10) (255, 255, 255) 2
      :: line_ops rest x (y + shiftY) shiftY
  end.

(** The camera when [generate_frame_image] returns: [cam] is the camera
    [__pull_raw_image] left. *)
Definition stamped (stamp : Q) (cam : Camera.state) : Camera.state :=
  Camera.with_current_frame_processed true (Camera.with_timestamp stamp cam).

(** No release among [evs] falls strictly inside a button of [bs] bound to
    the save. *)
Definition no_save_release (bs : list Button.t) (evs : list (Z * Z * Z))
  : Prop :=
  forall x y b,
    In (EVENT_LBUTTONUP, x, y) evs -> In b bs -> hit b x y = true ->
    Button.callback b <> QueueSaveSnapshot.

(** * Properties *)

(** Membership in a list that is given element by element. *)
Ltac in_list := simpl; repeat (first [left; reflexivity | right]).

(** ** Arithmetic helpers *)

Section Rationals.

Open Scope Q_scope.

Lemma Qle_bool_false (a b : Q) : Qle_bool a b = false -> b < a.
Proof.
  intro H. apply Qnot_le_lt. intro L.
  apply Qle_bool_iff in L. congruence.
Qed.

Lemma Qltb_true (a b : Q) : Qltb a b = true <-> a < b.
Proof.
  unfold Qltb. split.
  - intro H. apply Qle_bool_false. now apply negb_true_iff in H.
  - intro H. apply negb_true_iff. destruct (Qle_bool b a) eqn:E; trivial.
    apply Qle_bool_iff in E. lra.
Qed.

Lemma Qeq_bool_false (a b : Q) : ~ a == b -> Qeq_bool a b = false.
Proof.
  intro H. destruct (Qeq_bool a b) eqn:E; trivial.
  apply Qeq_bool_iff in E. contradiction.
Qed.

Lemma Qfloor_between (q : Q) (lo hi : Z) :
  inject_Z lo <= q -> q < inject_Z hi -> (lo <= Qfloor q < hi)%Z.
Proof.
  intros L U. split.
  - rewrite <- (Qfloor_Z lo). now apply Qfloor_resp_le.
  - rewrite Zlt_Qlt. apply Qle_lt_trans with q; [apply Qfloor_le|exact U].
Qed.

(** The integral part of a positive number m * 2^e is the floor of the
    number. *)
Lemma shiftl_floor (m : positive) (e : Z) :
  Z.shiftl (Zpos m) e = Qfloor (inject_Z (Zpos m) * 2 ^ e).
Proof.
  destruct (Z.le_gt_cases 0 e) as [P|N].
  - rewrite Z.shiftl_mul_pow2 by exact P.
    rewrite <- (Qfloor_Z (Z.pos m * 2 ^ e)). apply Qfloor_comp.
    rewrite inject_Z_mult. now rewrite (Zpower_Qpower 2 e P).
  - rewrite Z.shiftl_div_pow2 by lia.
    rewrite Zdiv_Qdiv. apply Qfloor_comp. unfold Qdiv.
    rewrite (Zpower_Qpower 2 (- e)) by lia.
    now rewrite Qpower_opp, Qinv_involutive.
Qed.

End Rationals.

(** ** Binary64 values *)

Lemma uint8_range (v : float64) : 0 <= uint8 v <= 255.
Proof.
  unfold uint8. destruct (integral_part v) as [t|]; [|lia].
  destruct ((- 2 ^ 31 <=? t) && (t <? 2 ^ 31)); [|lia].
  pose proof (Z.mod_pos_bound t 256). lia.
Qed.

(** The cast discards the fractional part: a number in [0, 256) becomes
    its floor. *)
Lemma uint8_floor (v : float64) :
  is_finite v = true -> (0 <= value v)%Q -> (value v < 256)%Q ->
  uint8 v = Qfloor (value v).
Proof.
  destruct v as [s|s| |s m e]; try discriminate; intros _ L U.
  - reflexivity.
  - destruct s.
    + exfalso. simpl in L.
      assert (P : (0 < 2 ^ e)%Q) by (apply Qpower_0_lt; reflexivity).
      assert (M : (inject_Z (Z.neg m) < 0)%Q)
        by (unfold Qlt; simpl; lia).
      nra.
    + assert (B : 0 <= Qfloor (value (S754_finite false m e)) < 256)
        by (apply Qfloor_between; assumption).
      unfold uint8, integral_part, cond_Zopp.
      rewrite shiftl_floor. simpl value in B. unfold cond_Zopp in B.
      replace (- 2 ^ 31 <=? _) with true by (symmetry; apply Z.leb_le; lia).
      replace (_ <? 2 ^ 31) with true by (symmetry; apply Z.ltb_lt; lia).
      simpl andb. cbv iota. unfold value, cond_Zopp. apply Z.mod_small. lia.
Qed.

Lemma SFeqb_finite (v w : float64) :
  is_finite w = true -> SFeqb v w = true ->
  (is_zero v = true /\ is_zero w = true) \/ v = w.
Proof.
  unfold SFeqb.
  destruct v as [s|s| |s m e], w as [s'|s'| |s' m' e']; intros F H;
    try discriminate F; simpl in H;
    try (destruct s; discriminate H); try (destruct s'; discriminate H);
    try discriminate H.
  - left; split; reflexivity.
  - right.
    destruct (Z.compare_spec e e') as [E|E|E];
      [|destruct s, s'; discriminate H|destruct s, s'; discriminate H].
    destruct (Pos.compare_cont Eq m m') eqn:C;
      [|destruct s, s'; discriminate H|destruct s, s'; discriminate H].
    apply Pos.compare_eq in C. subst.
    destruct s, s'; try discriminate H; reflexivity.
Qed.

Lemma fsub_self (v : float64) :
  is_finite v = true -> fsub v v = S754_zero false.
Proof.
  destruct v as [s|s| |s m e]; try discriminate; intros _.
  - destruct s; reflexivity.
  - unfold fsub, SF64sub, SFsub. rewrite Z.sub_diag. reflexivity.
Qed.

Lemma fsub_zeros (v w : float64) :
  is_zero v = true -> is_zero w = true -> is_zero (fsub v w) = true.
Proof.
  destruct v as [s|s| |s m e], w as [s'|s'| |s' m' e']; try discriminate.
  destruct s, s'; reflexivity.
Qed.

Lemma fmul_zero_255 (v : float64) :
  is_zero v = true -> is_zero (fmul v (Fin 255)) = true.
Proof.
  destruct v as [s|s| |s m e]; try discriminate. destruct s; reflexivity.
Qed.

Lemma fdiv_zero (v d : float64) :
  is_zero v = true -> is_nan d = false -> is_zero d = false ->
  is_zero (fdiv v d) = true.
Proof.
  destruct v as [s|s| |s m e]; try discriminate.
  destruct d; simpl; try discriminate; reflexivity.
Qed.

Lemma uint8_zero (v : float64) : is_zero v = true -> uint8 v = 0.
Proof.
  destruct v; try discriminate. reflexivity.
Qed.

Lemma nan_to_num1_finite (v : float64) :
  is_finite v = true -> nan_to_num1 v = v.
Proof.
  destruct v; try discriminate; reflexivity.
Qed.

(** A sample equal to a finite minimum has quotient zero, whatever number
    the divisor is, zero apart. *)
Lemma quotient_of_minimum (v Tmin Tmax : float64) :
  is_finite Tmin = true ->
  is_nan (fsub Tmax Tmin) = false -> is_zero (fsub Tmax Tmin) = false ->
  SFeqb v Tmin = true ->
  uint8 (quotient (nan_to_num1 v) Tmin Tmax) = 0.
Proof.
  intros F N Z E. apply uint8_zero. unfold quotient.
  apply fdiv_zero; [|exact N|exact Z]. apply fmul_zero_255.
  destruct (SFeqb_finite v Tmin F E) as [[Zv Zm]| ->].
  - apply fsub_zeros; [|exact Zm].
    destruct v; try discriminate; reflexivity.
  - rewrite (nan_to_num1_finite Tmin F), (fsub_self Tmin F). reflexivity.
Qed.

(** ** The rescale *)

Lemma set_shape_768 {A} (a : list A) :
  List.length a = 768%nat -> set_shape a 24 32 = Ok a.
Proof.
  intro H. unfold set_shape. rewrite H. reflexivity.
Qed.

Lemma rescaled_quotients (f : list float64) (Tmin Tmax : float64) :
  Camera.rescaled f Tmin Tmax
  = map (fun v => quotient (nan_to_num1 v) Tmin Tmax) f.
Proof.
  unfold Camera.rescaled, nan_to_num, quotient. now rewrite !map_map.
Qed.

(** C1 (as amended): for a frame of 768 samples the normalised pixel of
    each sample is the binary64 value of (value - min) * 255 / (max - min),
    every operation rounded as IEEE 754 rounds it, with its fractional part
    discarded by the cast to 8 bits and not rounded: a quotient in [0, 256)
    becomes its floor.  Every pixel lies in 0..255; when the minimum is
    finite and the divisor max - min is a number other than zero, a sample
    equal to the minimum gives 0; and for the frame 0.0, 1.0, ..., 767.0
    the pixel at index i is the integer quotient of i * 255 by 767.  That a
    sample equal to the maximum gives 255 is not part of it. *)
Theorem rescale_truncates :
  forall (f : list float64) (Tmin Tmax : float64),
    List.length f = 768%nat ->
    exists px,
      Camera.__temps_to_rescaled_uints f Tmin Tmax = Ok px
      /\ List.length px = 768%nat
      /\ (forall i v, nth_error f i = Some v ->
            nth_error px i = Some (uint8 (quotient (nan_to_num1 v) Tmin Tmax)))
      /\ (forall q, is_finite q = true -> (0 <= value q)%Q ->
            (value q < 256)%Q -> uint8 q = Qfloor (value q))
      /\ (forall p, In p px -> 0 <= p <= 255)
      /\ (is_finite Tmin = true ->
          is_nan (fsub Tmax Tmin) = false ->
          is_zero (fsub Tmax Tmin) = false ->
          forall i v, nth_error f i = Some v -> SFeqb v Tmin = true ->
                      nth_error px i = Some 0)
      /\ Camera.__temps_to_rescaled_uints ramp (Fin 0) (Fin 767)
         = Ok (map (fun i => Z.of_nat i * 255 / 767) (seq 0 768)).
Proof.
  intros f Tmin Tmax Hlen.
  exists (map (fun v => uint8 (quotient (nan_to_num1 v) Tmin Tmax)) f).
  assert (Px : forall i v, nth_error f i = Some v ->
             nth_error
               (map (fun v => uint8 (quotient (nan_to_num1 v) Tmin Tmax)) f) i
             = Some (uint8 (quotient (nan_to_num1 v) Tmin Tmax))).
  { intros i v H. rewrite nth_error_map, H. reflexivity. }
  split.
  { unfold Camera.__temps_to_rescaled_uints.
    rewrite rescaled_quotients, map_map.
    apply set_shape_768. now rewrite length_map. }
  split; [now rewrite length_map|].
  split; [exact Px|].
  split; [exact uint8_floor|].
  split.
  { intros p H. apply in_map_iff in H. destruct H as (v & <- & _).
    apply uint8_range. }
  split.
  { intros F N Z i v H E. rewrite (Px i v H).
    now rewrite quotient_of_minimum. }
  vm_compute. reflexivity.
Qed.

(** The ramp frame has the size the rescale theorem asks for. *)
Lemma rescale_truncates_witness :
  List.length ramp = 768%nat
  /\ exists px,
       Camera.__temps_to_rescaled_uints ramp (Fin 0) (Fin 767) = Ok px
       /\ List.length px = 768%nat
       /\ forall p, In p px -> 0 <= p <= 255.
Proof.
  assert (L : List.length ramp = 768%nat) by reflexivity.
  split; [exact L|].
  destruct (rescale_truncates ramp (Fin 0) (Fin 767) L)
    as (px & H & Hl & _ & _ & R & _).
  exists px. exact (conj H (conj Hl R)).
Defined.

(** C1 (as stated) fails twice.  In the frame 0.0, 1.0, ..., 767.0
    (minimum 0, maximum 767) the pixel at index 2 is 0, whereas
    2 * 255 / 767 rounds to 1.  In a frame with minimum 15.0 and maximum
    27.3 the sample 27.3, equal to the maximum, gives 254 and not 255: the
    quotient computed in binary64 falls just short of 255.  The primitive
    floats of the kernel give the same integral parts. *)
Lemma ramp_pixel_is_not_rounded :
  (Np.min ramp = Ok (Fin 0) /\ Np.max ramp = Ok (Fin 767)
   /\ exists px,
        Camera.__temps_to_rescaled_uints ramp (Fin 0) (Fin 767) = Ok px
        /\ nth_error px 2 = Some 0
        /\ rounded_pixel 2 0 767 = 1
        /\ nth_error px 2 <> Some (rounded_pixel 2 0 767)
        /\ Binary64.integral_part_is (Binary64.quotient 2 0 767) 0 = true)
  /\ (Np.min room = Ok (Fin 15) /\ Np.max room = Ok (Fin (273 # 10))
      /\ nth_error room 0 = Some (Fin (273 # 10))
      /\ exists px,
           Camera.__temps_to_rescaled_uints room (Fin 15) (Fin (273 # 10))
           = Ok px
           /\ nth_error px 0 = Some 254
           /\ nth_error px 0 <> Some 255
           /\ rounded_pixel (273 # 10) 15 (273 # 10) = 255
           /\ Binary64.integral_part_is (Binary64.quotient 27.3 15 27.3) 254
              = true).
Proof.
  split.
  - split; [vm_compute; reflexivity|]. split; [vm_compute; reflexivity|].
    eexists. split; [vm_compute; reflexivity|].
    split; [reflexivity|]. split; [reflexivity|].
    split; [|vm_compute; reflexivity].
    intro H. vm_compute in H. discriminate H.
  - split; [vm_compute; reflexivity|]. split; [vm_compute; reflexivity|].
    split; [vm_compute; reflexivity|].
    eexists. split; [vm_compute; reflexivity|].
    split; [reflexivity|]. split; [discriminate|].
    split; vm_compute; reflexivity.
Qed.

(** On the ramp frame and on the room frame the quotients of the model are
    the quotients the primitive floats of the kernel compute. *)
Example ramp_agrees_in_binary64 :
  map (fun i => quotient (Fin (inject_Z (Z.of_nat i))) (Fin 0) (Fin 767))
    (seq 0 768)
  = map (fun i =>
           Prim2SF (Binary64.quotient (Binary64.of_Z (Z.of_nat i)) 0 767))
      (seq 0 768)
  /\ map (fun v => quotient v (Fin 15) (Fin (273 # 10)))
       [Fin (273 # 10); Fin (232 # 10); Fin 15]
     = map (fun v => Prim2SF (Binary64.quotient v 15 27.3))
         [27.3; 23.2; 15]%float
  /\ [Fin (273 # 10); Fin (232 # 10); Fin 15; Fin 20; Fin 255]
     = map Prim2SF [27.3; 23.2; 15; 20; 255]%float.
Proof.
  repeat (split; [vm_compute; reflexivity|]).
  vm_compute; reflexivity.
Qed.

(** ** Frames of one value *)

Lemma minimum_idem (v : float64) : is_nan v = false -> minimum v v = v.
Proof.
  intro H. unfold minimum. rewrite H. simpl. now destruct (SFltb v v).
Qed.

Lemma maximum_idem (v : float64) : is_nan v = false -> maximum v v = v.
Proof.
  intro H. unfold maximum. rewrite H. simpl. now destruct (SFltb v v).
Qed.

Lemma fold_idem (op : float64 -> float64 -> float64) (v : float64) (n : nat) :
  op v v = v -> fold_left op (repeat v n) v = v.
Proof.
  intro H. induction n as [|n IH]; simpl; [reflexivity|]. now rewrite H.
Qed.

Lemma finite_is_no_nan (v : float64) : is_finite v = true -> is_nan v = false.
Proof.
  destruct v; try discriminate; reflexivity.
Qed.

Lemma zero_over_zero (v : float64) :
  is_finite v = true -> quotient (nan_to_num1 v) v v = NaN.
Proof.
  intro F. unfold quotient.
  rewrite (nan_to_num1_finite v F), (fsub_self v F). reflexivity.
Qed.

(** C3 (as amended): for a frame of 768 copies of one finite value, the
    maximum equals the minimum and normalisation yields the all-zero output
    without raising, but it does divide by zero: the divisor max - min is
    0 and every quotient is 0/0, that is NaN, which the cast to 8 bits
    turns into 0. *)
Theorem uniform_frame_is_zero_over_zero :
  forall v : float64,
    is_finite v = true ->
    Np.min (uniform v) = Ok v
    /\ Np.max (uniform v) = Ok v
    /\ fsub v v = S754_zero false
    /\ Camera.rescaled (uniform v) v v = repeat NaN 768
    /\ Camera.__temps_to_rescaled_uints (uniform v) v v = Ok (repeat 0 768).
Proof.
  intros v F.
  assert (N : is_nan v = false) by now apply finite_is_no_nan.
  assert (R : Camera.rescaled (uniform v) v v = repeat NaN 768).
  { rewrite rescaled_quotients. unfold uniform. rewrite map_repeat.
    now rewrite zero_over_zero. }
  split; [exact (f_equal Ok (fold_idem minimum v 767 (minimum_idem v N)))|].
  split; [exact (f_equal Ok (fold_idem maximum v 767 (maximum_idem v N)))|].
  split; [now apply fsub_self|].
  split; [exact R|].
  unfold Camera.__temps_to_rescaled_uints. rewrite R, map_repeat.
  reflexivity.
Qed.

(** The frame of 768 copies of 20.0 is a frame of one finite value. *)
Lemma uniform_frame_is_zero_over_zero_witness :
  is_finite (Fin 20) = true
  /\ Camera.__temps_to_rescaled_uints (uniform (Fin 20)) (Fin 20) (Fin 20)
     = Ok (repeat 0 768).
Proof.
  assert (F : is_finite (Fin 20) = true) by reflexivity.
  split; [exact F|].
  exact (proj2 (proj2 (proj2 (proj2
           (uniform_frame_is_zero_over_zero (Fin 20) F))))).
Defined.

(** C3 (as stated) fails in its last part: for 768 copies of 20.0 the
    output is the all-zero grid, but the code does divide by zero: the
    divisor is 0 and every quotient is 0/0 = NaN, as it is on the primitive
    floats of the kernel. *)
Lemma uniform_frame_divides_by_zero :
  let f := uniform (Fin 20) in
  Np.min f = Ok (Fin 20) /\ Np.max f = Ok (Fin 20)
  /\ is_zero (fsub (Fin 20) (Fin 20)) = true
  /\ Camera.rescaled f (Fin 20) (Fin 20) = repeat NaN 768
  /\ Camera.__temps_to_rescaled_uints f (Fin 20) (Fin 20) = Ok (repeat 0 768)
  /\ PrimFloat.is_nan (Binary64.quotient 20 20 20) = true
  /\ PrimFloat.eqb (20 - 20) 0 = true.
Proof.
  repeat (split; [vm_compute; reflexivity|]).
  vm_compute; reflexivity.
Qed.

(** ** Non-finite samples *)

Lemma fold_nan (op : float64 -> float64 -> float64) (f : list float64) :
  (forall v, op NaN v = NaN) -> fold_left op f NaN = NaN.
Proof.
  intro H. induction f as [|v f IH]; simpl; [reflexivity|]. now rewrite H.
Qed.

Lemma fold_meets_nan (op : float64 -> float64 -> float64) (f : list float64)
    (a : float64) :
  (forall v, op NaN v = NaN) -> (forall v, op v NaN = NaN) ->
  In NaN f -> fold_left op f a = NaN.
Proof.
  intros L R. revert a. induction f as [|v f IH]; intros a []; simpl.
  - subst v. rewrite R. now apply fold_nan.
  - now apply IH.
Qed.

(** [np.min] and [np.max] of a frame that holds a NaN are NaN. *)
Lemma np_min_max_of_nan (f : list float64) :
  In NaN f -> Np.min f = Ok NaN /\ Np.max f = Ok NaN.
Proof.
  assert (A : forall v, minimum NaN v = NaN) by reflexivity.
  assert (B : forall v, minimum v NaN = NaN)
    by (intro v; unfold minimum; now rewrite orb_true_r).
  assert (C : forall v, maximum NaN v = NaN) by reflexivity.
  assert (D : forall v, maximum v NaN = NaN)
    by (intro v; unfold maximum; now rewrite orb_true_r).
  destruct f as [|a f]; intros []; unfold Np.min, Np.max; simpl.
  - subst a. now rewrite !fold_nan.
  - now rewrite !fold_meets_nan.
Qed.

(** C2: the claim fails in the code.  For the frame NaN, 20.0, ..., 20.0
    the acquisition takes the minimum and the maximum before any NaN is
    replaced: temp_min and temp_max are both NaN, every quotient is NaN and
    the grid is all zeros.  As if the NaN were 0, the minimum is 0, the
    maximum 20, the pixel of the NaN sample 0 and every other pixel 255.
    The replacement the rescale makes afterwards turns NaN into 0 and the
    infinities into the largest finite numbers. *)
Theorem nan_reaches_min_and_max :
  let pulled := Camera.__pull_raw_image (Camera.init 0) (Filled nan_frame) in
  Camera.temp_min (fst pulled) = Some NaN
  /\ Camera.temp_max (fst pulled) = Some NaN
  /\ Camera.rescaled nan_frame NaN NaN = repeat NaN 768
  /\ snd pulled = Ok (U8Grid (repeat 0 768))
  /\ Np.min (zero_nans nan_frame) = Ok (Fin 0)
  /\ Np.max (zero_nans nan_frame) = Ok (Fin 20)
  /\ Camera.__temps_to_rescaled_uints (zero_nans nan_frame) (Fin 0) (Fin 20)
     = Ok (0 :: repeat 255 767)
  /\ nan_to_num1 NaN = Fin 0
  /\ nan_to_num1 PInf = max_float
  /\ nan_to_num1 NInf = SFopp max_float.
Proof.
  repeat (split; [vm_compute; reflexivity|]).
  vm_compute; reflexivity.
Qed.

(** ** Acquisition faults *)

Lemma store_same_length {A} (buf frame : list A) :
  List.length frame = List.length buf -> store buf frame = frame.
Proof.
  intro H. unfold store. rewrite <- H, firstn_all.
  rewrite skipn_all2 by lia. apply app_nil_r.
Qed.

Lemma write_at_length {A} (i : nat) (v : A) (buf : list A) :
  List.length (write_at i v buf) = List.length buf.
Proof.
  revert i. induction buf as [|h t IH]; intros [|i]; simpl; auto.
Qed.

Lemma write_all_length {A} (ws : list (nat * A)) (buf : list A) :
  List.length (write_all ws buf) = List.length buf.
Proof.
  revert buf. induction ws as [|w ws IH]; intro buf; simpl; [reflexivity|].
  unfold write_all in *. simpl. rewrite IH. apply write_at_length.
Qed.

Lemma store_length {A} (buf frame : list A) :
  List.length (store buf frame) = List.length buf.
Proof.
  unfold store. rewrite length_app, length_firstn, length_skipn. lia.
Qed.

(** The shared buffer keeps its length through every read. *)
Lemma pull_keeps_buffer_length (cam : Camera.state) (o : getFrame_outcome) :
  List.length (Camera.blank_image (fst (Camera.__pull_raw_image cam o)))
  = List.length (Camera.blank_image cam).
Proof.
  destruct o as [frame|e ws]; simpl.
  - set (b := store (Camera.blank_image cam) frame).
    assert (L : List.length b = List.length (Camera.blank_image cam))
      by apply store_length.
    destruct (Np.min b) as [mn|e1]; simpl.
    + destruct (Np.max b) as [mx|e2]; simpl.
      * destruct (Camera.__temps_to_rescaled_uints b mn mx) as [n|e3];
          simpl; [exact L|].
        unfold Camera.pull_except. destruct (exn_cls e3); exact L.
      * unfold Camera.pull_except. destruct (exn_cls e2); exact L.
    + unfold Camera.pull_except. destruct (exn_cls e1); exact L.
  - unfold Camera.pull_except.
    destruct (exn_cls e); simpl; apply write_all_length.
Qed.

(** A fault caught by [__pull_raw_image] hands on the shared buffer with
    whatever the driver wrote into it, and leaves the extremes alone. *)
Lemma pull_fault_hands_on_buffer (cam : Camera.state) (e : exn)
    (written : list (nat * float64)) :
  exn_cls e = OSError \/ exn_cls e = ValueError ->
  let pulled := Camera.__pull_raw_image cam (Failed e written) in
  snd pulled = Ok (F64Buf (write_all written (Camera.blank_image cam)))
  /\ Camera.temp_min (fst pulled) = Camera.temp_min cam
  /\ Camera.temp_max (fst pulled) = Camera.temp_max cam.
Proof.
  intros [H|H]; simpl; unfold Camera.pull_except; rewrite H; simpl; auto.
Qed.

(** A frame read without fault stays in the shared buffer. *)
Lemma pull_filled_keeps_frame (cam : Camera.state) (frame : list float64) :
  List.length frame = List.length (Camera.blank_image cam) ->
  Camera.blank_image (fst (Camera.__pull_raw_image cam (Filled frame)))
  = frame.
Proof.
  intro H. simpl. rewrite (store_same_length _ _ H).
  destruct (Np.min frame) as [mn|e1]; simpl.
  - destruct (Np.max frame) as [mx|e2]; simpl.
    + destruct (Camera.__temps_to_rescaled_uints frame mn mx) as [n|e3];
        simpl; [reflexivity|].
      unfold Camera.pull_except. destruct (exn_cls e3); reflexivity.
    + unfold Camera.pull_except. destruct (exn_cls e2); reflexivity.
  - unfold Camera.pull_except. destruct (exn_cls e1); reflexivity.
Qed.

(** C4: the code at a failing input.  After one good read of the frame
    0.0, ..., 767.0, a read that fails with OSError before writing anything
    makes [__pull_raw_image] return the float buffer still holding that
    frame, not 768 zeros; temp_min and temp_max keep the values of the good
    read.  No picture is made from the buffer: [cv2.applyColorMap] refuses
    the float array, [generate_frame_image] raises cv2.error and the loop
    ends with it after the one picture of the good read.  When no read has
    succeeded yet the buffer is still zero, and the same cv2.error is
    raised. *)
Theorem fault_after_read_returns_last_frame :
  let first := Camera.__pull_raw_image (Camera.init 0) (Filled ramp) in
  let second := Camera.__pull_raw_image (fst first) (Failed io_fault []) in
  let run :=
    start (main_window 0)
      [ramp_tick 1 []; failing_tick 2 io_fault; ramp_tick 3 []] in
  Camera.blank_image (Camera.init 0) = repeat (Fin 0) 768
  /\ snd second = Ok (F64Buf ramp)
  /\ snd second <> Ok (F64Buf (repeat (Fin 0) 768))
  /\ Camera.temp_min (fst second) = Some (Fin 0)
  /\ Camera.temp_max (fst second) = Some (Fin 767)
  /\ snd (Camera.generate_frame_image (fst first) (Failed io_fault []) 1 1)
     = Raise colormap_refusal
  /\ snd run = Raised colormap_refusal
  /\ List.length (shown (fst run)) = 1%nat
  /\ snd (Camera.__pull_raw_image (Camera.init 0) (Failed io_fault []))
     = Ok (F64Buf (repeat (Fin 0) 768))
  /\ snd (Camera.generate_frame_image (Camera.init 0) (Failed io_fault []) 1 1)
     = Raise colormap_refusal.
Proof.
  split; [reflexivity|].
  split; [vm_compute; reflexivity|].
  split; [intro H; vm_compute in H; discriminate H|].
  repeat (split; [vm_compute; reflexivity|]).
  vm_compute; reflexivity.
Qed.

(** ** Cycling the selections *)

Lemma cycle_colormap_index (cam : Camera.state) :
  0 <= Camera.colormap_index cam < 9 ->
  Camera.colormap_index (Camera.cycle_colormap cam)
  = (Camera.colormap_index cam + 1) mod 9.
Proof.
  intro H. unfold Camera.cycle_colormap. simpl.
  destruct (Z.geb_spec (Camera.colormap_index cam + 1) 9) as [G|G]; simpl.
  - replace (Camera.colormap_index cam) with 8 by lia. reflexivity.
  - symmetry. apply Z.mod_small. lia.
Qed.

Lemma cycle_interpolation_index (cam : Camera.state) :
  0 <= Camera.interpolation_index cam < 7 ->
  Camera.interpolation_index (Camera.cycle_interpolation cam)
  = (Camera.interpolation_index cam + 1) mod 7.
Proof.
  intro H. unfold Camera.cycle_interpolation. simpl.
  destruct (Z.geb_spec (Camera.interpolation_index cam + 1) 7) as [G|G]; simpl.
  - replace (Camera.interpolation_index cam) with 6 by lia. reflexivity.
  - symmetry. apply Z.mod_small. lia.
Qed.

Lemma full_colormap_cycle (cam : Camera.state) :
  0 <= Camera.colormap_index cam < 9 ->
  Nat.iter 9 Camera.cycle_colormap cam = cam.
Proof.
  destruct cam as [sm c i p b t mn mx]. simpl. intro H.
  assert (C : c = 0 \/ c = 1 \/ c = 2 \/ c = 3 \/ c = 4 \/ c = 5 \/ c = 6
              \/ c = 7 \/ c = 8) by lia.
  repeat (destruct C as [->|C]; [reflexivity|]). subst c. reflexivity.
Qed.

Lemma full_interpolation_cycle (cam : Camera.state) :
  0 <= Camera.interpolation_index cam < 7 ->
  Nat.iter 7 Camera.cycle_interpolation cam = cam.
Proof.
  destruct cam as [sm c i p b t mn mx]. simpl. intro H.
  assert (C : i = 0 \/ i = 1 \/ i = 2 \/ i = 3 \/ i = 4 \/ i = 5 \/ i = 6)
    by lia.
  repeat (destruct C as [->|C]; [reflexivity|]). subst i. reflexivity.
Qed.

(** C7: from an index inside its catalogue, [cycle_colormap] and
    [cycle_interpolation] each move their index to the next one modulo the
    length of the catalogue (9 colormaps, 7 interpolations), keep it inside
    the catalogue, and calling either as many times as its catalogue is long
    gives back the starting state; both are total functions of the state. *)
Theorem cycling_wraps :
  forall cam : Camera.state,
    let nc := Z.of_nat (List.length Camera.colormap_list) in
    let ni := Z.of_nat (List.length Camera.interpolation_list) in
    0 <= Camera.colormap_index cam < nc ->
    0 <= Camera.interpolation_index cam < ni ->
    Camera.colormap_index (Camera.cycle_colormap cam)
    = (Camera.colormap_index cam + 1) mod nc
    /\ 0 <= Camera.colormap_index (Camera.cycle_colormap cam) < nc
    /\ Nat.iter (Z.to_nat nc) Camera.cycle_colormap cam = cam
    /\ Camera.interpolation_index (Camera.cycle_interpolation cam)
       = (Camera.interpolation_index cam + 1) mod ni
    /\ 0 <= Camera.interpolation_index (Camera.cycle_interpolation cam) < ni
    /\ Nat.iter (Z.to_nat ni) Camera.cycle_interpolation cam = cam.
Proof.
  intros cam nc ni Hc Hi.
  change nc with 9 in *. change ni with 7 in *.
  pose proof (cycle_colormap_index cam Hc) as Ec.
  pose proof (cycle_interpolation_index cam Hi) as Ei.
  split; [exact Ec|].
  split; [rewrite Ec; apply Z.mod_pos_bound; lia|].
  split; [exact (full_colormap_cycle cam Hc)|].
  split; [exact Ei|].
  split; [rewrite Ei; apply Z.mod_pos_bound; lia|].
  exact (full_interpolation_cycle cam Hi).
Qed.

(** The camera at start-up: colormap 0 goes to 1, interpolation 3 to 4. *)
Lemma cycling_wraps_witness :
  0 <= Camera.colormap_index (Camera.init 0) < 9
  /\ 0 <= Camera.interpolation_index (Camera.init 0) < 7
  /\ Camera.colormap_index (Camera.cycle_colormap (Camera.init 0)) = 1
  /\ Camera.interpolation_index (Camera.cycle_interpolation (Camera.init 0))
     = 4.
Proof.
  assert (Hc : 0 <= Camera.colormap_index (Camera.init 0) < 9)
    by (simpl; lia).
  assert (Hi : 0 <= Camera.interpolation_index (Camera.init 0) < 7)
    by (simpl; lia).
  pose proof (cycling_wraps (Camera.init 0) Hc Hi) as (Ec & _ & _ & Ei & _).
  refine (conj Hc (conj Hi (conj _ _))).
  - exact Ec.
  - exact Ei.
Defined.

(** ** The order of colormap and interpolation *)

Lemma process_pure_scipy (cam : Camera.state) (px : list Z) :
  Camera.interpolation_index cam = 5 ->
  Camera.__process_raw_image cam (U8Grid px)
  = (cmap <- Camera.__colormap cam ;;
     Ok (mk_picture (U8Grid px)
           ([Zoom 25; ApplyColorMap cmap; Flip 1] ++ smoothing cam))).
Proof.
  intro H. unfold Camera.__process_raw_image, smoothing. rewrite H. simpl.
  destruct (Camera.__colormap cam); simpl; [|reflexivity].
  destruct (Camera.use_smoothing_filter cam); reflexivity.
Qed.

Lemma process_mixed (cam : Camera.state) (px : list Z) :
  Camera.interpolation_index cam = 6 ->
  Camera.__process_raw_image cam (U8Grid px)
  = (cmap <- Camera.__colormap cam ;;
     Ok (mk_picture (U8Grid px)
           ([Zoom 10; ApplyColorMap cmap; Resize 800 600 Camera.INTER_CUBIC;
             Flip 1] ++ smoothing cam))).
Proof.
  intro H. unfold Camera.__process_raw_image, smoothing. rewrite H. simpl.
  destruct (Camera.__colormap cam); simpl; [|reflexivity].
  destruct (Camera.use_smoothing_filter cam); reflexivity.
Qed.

Lemma process_cv2 (cam : Camera.state) (px : list Z) :
  Camera.interpolation_index cam <> 5 ->
  Camera.interpolation_index cam <> 6 ->
  Camera.__process_raw_image cam (U8Grid px)
  = (cmap <- Camera.__colormap cam ;;
     interpolation <- Camera.__interpolation cam ;;
     Ok (mk_picture (U8Grid px)
           ([ApplyColorMap cmap; Resize 800 600 interpolation; Flip 1]
            ++ smoothing cam))).
Proof.
  intros H5 H6. unfold Camera.__process_raw_image, smoothing.
  apply Z.eqb_neq in H5, H6. rewrite H5, H6. simpl.
  destruct (Camera.__colormap cam); simpl; [|reflexivity].
  destruct (Camera.__interpolation cam); simpl; [|reflexivity].
  destruct (Camera.use_smoothing_filter cam); reflexivity.
Qed.

(** The float64 buffer is never processed to a picture: whatever the
    selections are, a lookup or [cv2.applyColorMap] raises. *)
Lemma process_float_buffer (cam : Camera.state) (buf : list float64) :
  exists e, Camera.__process_raw_image cam (F64Buf buf) = Raise e.
Proof.
  unfold Camera.__process_raw_image.
  destruct (Camera.interpolation_index cam =? 5);
    [|destruct (Camera.interpolation_index cam =? 6)];
    destruct (Camera.__colormap cam) as [cmap|e]; simpl; eauto.
Qed.

Lemma process_ok_is_grid (cam : Camera.state) (a : array) (p : picture) :
  Camera.__process_raw_image cam a = Ok p -> exists px, a = U8Grid px.
Proof.
  destruct a as [px|buf]; intro H; [now exists px|].
  destruct (process_float_buffer cam buf) as [e E]. congruence.
Qed.

(** The pictures [__process_raw_image] returns: one of three sequences of
    operations on the grid it was given. *)
Lemma process_shapes (cam : Camera.state) (a : array) (p : picture) :
  Camera.__process_raw_image cam a = Ok p ->
  exists px cmap,
    a = U8Grid px /\ Camera.__colormap cam = Ok cmap /\ source p = a
    /\ (ops p = [Zoom 25; ApplyColorMap cmap; Flip 1] ++ smoothing cam
        \/ ops p = [Zoom 10; ApplyColorMap cmap;
                    Resize 800 600 Camera.INTER_CUBIC; Flip 1]
                   ++ smoothing cam
        \/ exists interpolation,
             ops p = [ApplyColorMap cmap; Resize 800 600 interpolation;
                      Flip 1] ++ smoothing cam).
Proof.
  intro H. destruct (process_ok_is_grid cam a p H) as [px ->].
  exists px.
  destruct (Z.eq_dec (Camera.interpolation_index cam) 5) as [I5|I5];
    [|destruct (Z.eq_dec (Camera.interpolation_index cam) 6) as [I6|I6]].
  - rewrite (process_pure_scipy cam px I5) in H.
    destruct (Camera.__colormap cam) as [cmap|e]; simpl in H;
      [|discriminate H].
    injection H as <-. exists cmap. repeat split. now left.
  - rewrite (process_mixed cam px I6) in H.
    destruct (Camera.__colormap cam) as [cmap|e]; simpl in H;
      [|discriminate H].
    injection H as <-. exists cmap. repeat split. right. now left.
  - rewrite (process_cv2 cam px I5 I6) in H.
    destruct (Camera.__colormap cam) as [cmap|e]; simpl in H;
      [|discriminate H].
    destruct (Camera.__interpolation cam) as [interpolation|e]; simpl in H;
      [|discriminate H].
    injection H as <-. exists cmap. repeat split. right. right.
    now exists interpolation.
Qed.

(** C9 (as amended): for the two SciPy selections (indices 5 and 6) the
    zoom is applied to the normalised grid first and the colormap after it
    (zoom by 25 for index 5; zoom by 10, colormap, then a cubic resize to
    800x600 for index 6); for every other selection the colormap is applied
    first and the resize after it. *)
Theorem scipy_paths_zoom_before_colormap :
  forall (cam : Camera.state) (a : array) (p : picture),
    Camera.__process_raw_image cam a = Ok p ->
    (Camera.interpolation_index cam = 5 ->
       exists cmap,
         Camera.__colormap cam = Ok cmap
         /\ ops p = [Zoom 25; ApplyColorMap cmap; Flip 1] ++ smoothing cam
         /\ colormap_before_interpolation (ops p) = false)
    /\ (Camera.interpolation_index cam = 6 ->
          exists cmap,
            Camera.__colormap cam = Ok cmap
            /\ ops p = [Zoom 10; ApplyColorMap cmap;
                        Resize 800 600 Camera.INTER_CUBIC; Flip 1]
                       ++ smoothing cam
            /\ colormap_before_interpolation (ops p) = false)
    /\ (Camera.interpolation_index cam <> 5 ->
        Camera.interpolation_index cam <> 6 ->
          exists cmap interpolation,
            Camera.__colormap cam = Ok cmap
            /\ Camera.__interpolation cam = Ok interpolation
            /\ ops p = [ApplyColorMap cmap; Resize 800 600 interpolation;
                        Flip 1] ++ smoothing cam
            /\ colormap_before_interpolation (ops p) = true).
Proof.
  intros cam a p H.
  destruct (process_ok_is_grid cam a p H) as [px ->]. rename px into a.
  repeat split.
  - intro I. rewrite (process_pure_scipy cam a I) in H.
    destruct (Camera.__colormap cam) as [cmap|e]; simpl in H;
      [|discriminate H].
    injection H as <-. exists cmap. repeat split.
  - intro I. rewrite (process_mixed cam a I) in H.
    destruct (Camera.__colormap cam) as [cmap|e]; simpl in H;
      [|discriminate H].
    injection H as <-. exists cmap. repeat split.
  - intros I5 I6. rewrite (process_cv2 cam a I5 I6) in H.
    destruct (Camera.__colormap cam) as [cmap|e]; simpl in H;
      [|discriminate H].
    destruct (Camera.__interpolation cam) as [interpolation|e]; simpl in H;
      [|discriminate H].
    injection H as <-. exists cmap, interpolation. repeat split.
Qed.

(** The camera at start-up switched to selection 5. *)
Lemma scipy_paths_zoom_before_colormap_witness :
  let cam := Camera.with_interpolation_index 5 (Camera.init 0) in
  let p := mk_picture (U8Grid [])
             [Zoom 25; ApplyColorMap "jet"; Flip 1; BilateralFilter 15 80 80] in
  Camera.__process_raw_image cam (U8Grid []) = Ok p
  /\ Camera.interpolation_index cam = 5
  /\ exists cmap,
       Camera.__colormap cam = Ok cmap
       /\ ops p = [Zoom 25; ApplyColorMap cmap; Flip 1] ++ smoothing cam
       /\ colormap_before_interpolation (ops p) = false.
Proof.
  intros cam p.
  assert (H : Camera.__process_raw_image cam (U8Grid []) = Ok p)
    by reflexivity.
  assert (I : Camera.interpolation_index cam = 5) by reflexivity.
  refine (conj H (conj I _)).
  exact (proj1 (scipy_paths_zoom_before_colormap cam (U8Grid []) p H) I).
Defined.

(** C9 (as stated) fails: with selection 5, and with selection 6, the first
    operation applied to the grid is the zoom and the colormap comes after
    it, while with the default selection 3 the colormap comes first. *)
Lemma scipy_selection_zooms_first :
  let at_index i :=
    Camera.__process_raw_image
      (Camera.with_interpolation_index i (Camera.init 0)) (U8Grid []) in
  at_index 5
  = Ok (mk_picture (U8Grid [])
          [Zoom 25; ApplyColorMap "jet"; Flip 1; BilateralFilter 15 80 80])
  /\ at_index 6
     = Ok (mk_picture (U8Grid [])
             [Zoom 10; ApplyColorMap "jet"; Resize 800 600 2; Flip 1;
              BilateralFilter 15 80 80])
  /\ at_index 3
     = Ok (mk_picture (U8Grid [])
             [ApplyColorMap "jet"; Resize 800 600 2; Flip 1;
              BilateralFilter 15 80 80])
  /\ colormap_before_interpolation
       [Zoom 25; ApplyColorMap "jet"; Flip 1; BilateralFilter 15 80 80]
     = false
  /\ colormap_before_interpolation
       [Zoom 10; ApplyColorMap "jet"; Resize 800 600 2; Flip 1;
        BilateralFilter 15 80 80]
     = false.
Proof.
  repeat split.
Qed.

(** ** Pointer releases *)

Lemma hit_strictly_inside (b : Button.t) (x y : Z) :
  hit b x y = true
  <-> fst (Button.start b) < x < fst (Button.end_ b)
      /\ snd (Button.start b) < y < snd (Button.end_ b).
Proof.
  unfold hit. rewrite !andb_true_iff, !Z.gtb_lt, !Z.ltb_lt. lia.
Qed.

Lemma click_loop_filter {S} (invoke : action -> S -> S) (bs : list Button.t)
    (x y : Z) (s : S) :
  click_loop invoke bs x y s
  = fold_left (fun s cb => invoke cb s)
      (map Button.callback (filter (fun b => hit b x y) bs)) s.
Proof.
  revert s. induction bs as [|b bs IH]; intro s; simpl; [reflexivity|].
  destruct (hit b x y); simpl; apply IH.
Qed.

Lemma fold_log {A} (l acc : list A) :
  fold_left (fun log a => log ++ [a]) l acc = acc ++ l.
Proof.
  revert acc. induction l as [|a l IH]; intro acc; simpl.
  - now rewrite app_nil_r.
  - rewrite IH, <- app_assoc. reflexivity.
Qed.

Lemma invoked_filter (bs : list Button.t) (x y : Z) :
  invoked bs EVENT_LBUTTONUP x y
  = map Button.callback (filter (fun b => hit b x y) bs).
Proof.
  unfold invoked. simpl. rewrite click_loop_filter. apply fold_log.
Qed.

Lemma filter_none {A} (f : A -> bool) (l : list A) :
  (forall a, In a l -> f a = false) -> filter f l = [].
Proof.
  induction l as [|a l IH]; intro H; simpl; [reflexivity|].
  rewrite (H a (or_introl eq_refl)). apply IH.
  intros a' Ha'. apply H. now right.
Qed.

Lemma first_match_skip (pre rest : list Button.t) (x y : Z) :
  (forall b, In b pre -> hit b x y = false) ->
  first_match (pre ++ rest) x y = first_match rest x y.
Proof.
  induction pre as [|b pre IH]; intro H; simpl; [reflexivity|].
  rewrite (H b (or_introl eq_refl)). apply IH.
  intros b' Hb'. apply H. now right.
Qed.

Lemma default_buttons_first_match (x y : Z) :
  invoked default_buttons EVENT_LBUTTONUP x y = first_match default_buttons x y.
Proof.
  rewrite invoked_filter. unfold default_buttons. simpl.
  repeat match goal with
         | |- context [hit ?b x y] =>
             let E := fresh "E" in
             destruct (hit b x y) eqn:E;
             [apply hit_strictly_inside in E; simpl in E|]
         end;
    simpl; try reflexivity; exfalso; lia.
Qed.

Lemma hit_iff_strictly_inside (b : Button.t) (x y : Z) :
  hit b x y = true <-> strictly_inside b x y.
Proof.
  rewrite hit_strictly_inside. unfold strictly_inside. lia.
Qed.

Lemma outside_is_no_hit (b : Button.t) (x y : Z) :
  ~ strictly_inside b x y -> hit b x y = false.
Proof.
  intro N. destruct (hit b x y) eqn:E; [|reflexivity].
  now apply hit_iff_strictly_inside in E.
Qed.

(** The buttons a release at (x, y) hits in the window of [main]. *)
Lemma default_buttons_hits (x y : Z) :
  map Button.callback (filter (fun b => hit b x y) default_buttons)
  = click_map x y.
Proof.
  unfold default_buttons, click_map, hit.
  cbn -[Z.ltb Z.gtb]. rewrite !Z.gtb_ltb.
  repeat (match goal with
          | |- context [?a <? ?b] => destruct (Z.ltb_spec a b)
          end;
          try (exfalso; lia); cbn -[Z.ltb]).
  all: reflexivity.
Qed.

Lemma default_release (self : state) (x y : Z) :
  buttons self = default_buttons ->
  __process_click_input self EVENT_LBUTTONUP x y
  = fold_left (fun s cb => call cb s) (click_map x y) self.
Proof.
  intro E. unfold __process_click_input. simpl.
  now rewrite click_loop_filter, E, default_buttons_hits.
Qed.

Lemma click_map_row (x y : Z) :
  550 < y < 600 ->
  click_map x y
  = if (0 <? x) && (x <? 80) then [QueueSaveSnapshot]
    else if (90 <? x) && (x <? 220) then [CycleColormap]
    else if (230 <? x) && (x <? 380) then [CycleInterpolation]
    else if (390 <? x) && (x <? 460) then [Exit]
    else [].
Proof.
  intro H. unfold click_map.
  replace (550 <? y) with true by (symmetry; apply Z.ltb_lt; lia).
  replace (y <? 600) with true by (symmetry; apply Z.ltb_lt; lia).
  reflexivity.
Qed.

Lemma cycle_colormap_next (cam : Camera.state) :
  Camera.colormap_index (Camera.cycle_colormap cam)
  = if Camera.colormap_index cam + 1 >=? 9 then 0
    else Camera.colormap_index cam + 1.
Proof.
  unfold Camera.cycle_colormap. simpl.
  now destruct (Camera.colormap_index cam + 1 >=? 9).
Qed.

Lemma cycle_interpolation_next (cam : Camera.state) :
  Camera.interpolation_index (Camera.cycle_interpolation cam)
  = if Camera.interpolation_index cam + 1 >=? 7 then 0
    else Camera.interpolation_index cam + 1.
Proof.
  unfold Camera.cycle_interpolation. simpl.
  now destruct (Camera.interpolation_index cam + 1 >=? 7).
Qed.

(** C6: a pointer release runs the callbacks [invoked] lists, on the state
    of the window.  When the point is strictly inside the rectangle of
    exactly one button, that button's action alone is invoked, as a search
    that stops at the first match would do, and the window is left as that
    one action leaves it; when it is strictly inside none, nothing is
    invoked and the window is unchanged; the rectangles of the four buttons
    of the window, borders included, are pairwise disjoint; and in the
    window of [main] a release inside Save queues the save, one inside
    Colormap or Interpolation advances that selection of the camera, and
    one inside Exit requests the exit. *)
Theorem pointer_release_invokes_the_hit_button :
  forall (self : state) (x y : Z),
    __process_click_input self EVENT_LBUTTONUP x y
    = fold_left (fun s cb => call cb s)
        (invoked (buttons self) EVENT_LBUTTONUP x y) self
    /\ (forall pre b post,
          buttons self = pre ++ b :: post ->
          strictly_inside b x y ->
          (forall b', In b' (pre ++ post) -> ~ strictly_inside b' x y) ->
          invoked (buttons self) EVENT_LBUTTONUP x y = [Button.callback b]
          /\ first_match (buttons self) x y = [Button.callback b]
          /\ __process_click_input self EVENT_LBUTTONUP x y
             = call (Button.callback b) self)
    /\ ((forall b, In b (buttons self) -> ~ strictly_inside b x y) ->
        invoked (buttons self) EVENT_LBUTTONUP x y = []
        /\ __process_click_input self EVENT_LBUTTONUP x y = self)
    /\ (forall i j b1 b2,
          i <> j ->
          nth_error default_buttons i = Some b1 ->
          nth_error default_buttons j = Some b2 ->
          ~ (covers b1 x y /\ covers b2 x y))
    /\ invoked default_buttons EVENT_LBUTTONUP x y
       = first_match default_buttons x y
    /\ (buttons self = default_buttons -> 550 < y < 600 ->
        let released := __process_click_input self EVENT_LBUTTONUP x y in
        (0 < x < 80 ->
           queue_save_snapshot released = true
           /\ released = with_queue_save_snapshot true self)
        /\ (90 < x < 220 ->
              Camera.colormap_index (camera released)
              = (if Camera.colormap_index (camera self) + 1 >=? 9 then 0
                 else Camera.colormap_index (camera self) + 1)
              /\ released
                 = with_camera (Camera.cycle_colormap (camera self)) self)
        /\ (230 < x < 380 ->
              Camera.interpolation_index (camera released)
              = (if Camera.interpolation_index (camera self) + 1 >=? 7 then 0
                 else Camera.interpolation_index (camera self) + 1)
              /\ released
                 = with_camera (Camera.cycle_interpolation (camera self)) self)
        /\ (390 < x < 460 ->
              is_exit_requested released = true
              /\ released = with_is_exit_requested true self)
        /\ (x <= 0 \/ 80 <= x <= 90 \/ 220 <= x <= 230 \/ 380 <= x <= 390
            \/ 460 <= x -> released = self)).
Proof.
  intros self x y. split.
  { unfold __process_click_input. simpl.
    rewrite click_loop_filter, invoked_filter. reflexivity. }
  split.
  { intros pre b post E Hb Hothers.
    apply hit_iff_strictly_inside in Hb.
    assert (Hno : forall b', In b' (pre ++ post) -> hit b' x y = false)
      by (intros b' Hb'; now apply outside_is_no_hit, Hothers).
    assert (F : filter (fun b => hit b x y) (pre ++ b :: post) = [b]).
    { rewrite filter_app. simpl. rewrite Hb.
      rewrite !filter_none; [reflexivity| |];
        intros b' Hb'; apply Hno, in_or_app; auto. }
    rewrite E. split; [|split].
    - now rewrite invoked_filter, F.
    - rewrite first_match_skip.
      + simpl. now rewrite Hb.
      + intros b' Hb'. apply Hno, in_or_app. auto.
    - unfold __process_click_input. simpl.
      now rewrite click_loop_filter, E, F. }
  split.
  { intro H.
    assert (F : filter (fun b => hit b x y) (buttons self) = []).
    { apply filter_none. intros b Hb. now apply outside_is_no_hit, H. }
    split.
    - now rewrite invoked_filter, F.
    - unfold __process_click_input. simpl. now rewrite click_loop_filter, F. }
  split.
  { intros i j b1 b2 N H1 H2 [C1 C2]. unfold covers in C1, C2.
    unfold default_buttons in H1, H2. simpl in H1, H2.
    destruct i as [|[|[|[|i]]]]; simpl in H1; try discriminate H1;
      try (destruct i; discriminate H1);
      destruct j as [|[|[|[|j]]]]; simpl in H2; try discriminate H2;
      try (destruct j; discriminate H2);
      try (exfalso; apply N; reflexivity);
      injection H1 as <-; injection H2 as <-; simpl in C1, C2; lia. }
  split; [apply default_buttons_first_match|].
  intros E Y released. unfold released.
  rewrite (default_release self x y E), (click_map_row x y Y).
  split; [|split; [|split; [|split]]]; intro X;
    repeat match goal with
           | |- context [?a <? ?b] =>
               destruct (Z.ltb_spec a b); try (exfalso; lia)
           end;
    cbn [fold_left call];
    first [ reflexivity
          | split; [reflexivity|reflexivity]
          | split; [exact (cycle_colormap_next (camera self))|reflexivity]
          | split; [exact (cycle_interpolation_next (camera self))
                   |reflexivity] ].
Qed.

(** A release at (100, 560) in the window of [main]: inside Colormap only;
    the colormap index of the camera goes from 0 to 1. *)
Lemma pointer_release_invokes_the_hit_button_witness :
  let self := main_window 0 in
  let save := Button.mk "Save" (0, 550) (80, 600) QueueSaveSnapshot in
  let colormap := Button.mk "Colormap" (90, 550) (220, 600) CycleColormap in
  let others :=
    [Button.mk "Interpolation" (230, 550) (380, 600) CycleInterpolation;
     Button.mk "Exit" (390, 550) (460, 600) Exit] in
  buttons self = [save] ++ colormap :: others
  /\ strictly_inside colormap 100 560
  /\ (forall b, In b ([save] ++ others) -> ~ strictly_inside b 100 560)
  /\ invoked (buttons self) EVENT_LBUTTONUP 100 560 = [CycleColormap]
  /\ first_match (buttons self) 100 560 = [CycleColormap]
  /\ __process_click_input self EVENT_LBUTTONUP 100 560
     = call CycleColormap self
  /\ Camera.colormap_index (camera self) = 0
  /\ Camera.colormap_index
       (camera (__process_click_input self EVENT_LBUTTONUP 100 560)) = 1.
Proof.
  intros self save colormap others.
  assert (E : buttons self = [save] ++ colormap :: others) by reflexivity.
  assert (H : strictly_inside colormap 100 560)
    by (unfold strictly_inside; simpl; lia).
  assert (N : forall b, In b ([save] ++ others) -> ~ strictly_inside b 100 560).
  { intros b Hb. simpl in Hb. unfold strictly_inside.
    destruct Hb as [<-|[<-|[<-|[]]]]; simpl; lia. }
  refine (conj E (conj H (conj N _))).
  pose proof (pointer_release_invokes_the_hit_button self 100 560)
    as (_ & One & _).
  destruct (One [save] colormap others E H N) as (A & B & C).
  refine (conj A (conj B (conj C (conj eq_refl _)))).
  reflexivity.
Defined.

(** The loop has no [break]: were two rectangles to overlap, a release
    inside both would invoke both actions, where a search stopping at the
    first match invokes one. *)
Remark overlapping_buttons_both_fire :
  let b1 := Button.mk "A" (0, 0) (100, 100) CycleColormap in
  let b2 := Button.mk "B" (50, 50) (150, 150) CycleInterpolation in
  invoked [b1; b2] EVENT_LBUTTONUP 75 75 = [CycleColormap; CycleInterpolation]
  /\ first_match [b1; b2] 75 75 = [CycleColormap].
Proof.
  split; reflexivity.
Qed.

(** ** What one tick draws *)

Lemma drawn_over_nil (p : picture) : drawn_over p [] = p.
Proof.
  destruct p as [a l]. unfold drawn_over. simpl. now rewrite app_nil_r.
Qed.

Lemma drawn_over_app (p : picture) (l1 l2 : list draw) :
  drawn_over (drawn_over p l1) l2 = drawn_over p (l1 ++ l2).
Proof.
  unfold drawn_over. simpl. now rewrite app_assoc.
Qed.

Lemma apply_drawn_over (op : draw) (p : picture) :
  apply op p = drawn_over p [op].
Proof.
  reflexivity.
Qed.

Lemma draw_buttons_loop_overlay (bs : list Button.t) (self : state)
    (p : picture) :
  current_image self = Some p ->
  draw_buttons_loop bs self
  = with_current_image (Some (drawn_over p (button_overlay bs))) self.
Proof.
  revert self p. induction bs as [|b bs IH]; intros self p H.
  - simpl. rewrite drawn_over_nil, <- H. now destruct self.
  - simpl draw_buttons_loop.
    erewrite IH.
    2:{ unfold draw_on_current. simpl. rewrite H. simpl. reflexivity. }
    rewrite !apply_drawn_over, !drawn_over_app. now destruct self.
Qed.

Lemma same_display_refl (s : state) : same_display s s.
Proof.
  repeat split.
Qed.

Lemma same_display_trans (s1 s2 s3 : state) :
  same_display s1 s2 -> same_display s2 s3 -> same_display s1 s3.
Proof.
  unfold same_display. intros (A & B & C & D & E) (A' & B' & C' & D' & E').
  repeat split; congruence.
Qed.

Lemma call_same_display (cb : action) (s : state) : same_display s (call cb s).
Proof.
  destruct cb; repeat split.
Qed.

Lemma click_loop_same_display (bs : list Button.t) (x y : Z) (s : state) :
  same_display s (click_loop call bs x y s).
Proof.
  revert s. induction bs as [|b bs IH]; intro s; simpl.
  - apply same_display_refl.
  - destruct (hit b x y); [|apply IH].
    eapply same_display_trans; [apply call_same_display|apply IH].
Qed.

Lemma process_events_same_display (evs : list (Z * Z * Z)) (k : Z)
    (s : state) :
  same_display s (__process_events s evs k).
Proof.
  unfold __process_events.
  assert (F : same_display s
                (fold_left
                   (fun s ev => __process_click_input s (fst (fst ev))
                                  (snd (fst ev)) (snd ev)) evs s)).
  { revert s. induction evs as [|ev evs IH]; intro s; simpl.
    - apply same_display_refl.
    - eapply same_display_trans; [|apply IH].
      unfold __process_click_input.
      destruct (negb (fst (fst ev) =? EVENT_LBUTTONUP)).
      + apply same_display_refl.
      + apply click_loop_same_display. }
  destruct (Z.land k 255 =? 27); [|exact F].
  eapply same_display_trans; [exact F|]. repeat split.
Qed.

(** ** What [generate_frame_image] draws *)

Lemma frame_op_not_overlay (bs : list Button.t) (op : draw) :
  frame_op op = true -> op <> notification /\ ~ In op (button_overlay bs).
Proof.
  intro H. split.
  - intros ->. discriminate H.
  - intro I. unfold button_overlay in I. apply in_flat_map in I.
    destruct I as (b & _ & [<-|[<-|[]]]); simpl in H.
    + discriminate H.
    + rewrite andb_false_r in H. discriminate H.
Qed.

Lemma process_raw_image_ops (cam : Camera.state) (a : array) (p : picture) :
  Camera.__process_raw_image cam a = Ok p ->
  source p = a /\ forallb frame_op (ops p) = true.
Proof.
  intro H.
  destruct (process_shapes cam a p H) as (px & cmap & _ & _ & S & O).
  split; [exact S|].
  destruct O as [O|[O|[ip O]]]; rewrite O; unfold smoothing;
    destruct (Camera.use_smoothing_filter cam); reflexivity.
Qed.

Lemma add_image_text_ops (cam : Camera.state) (p img : picture) (now : Q) :
  Camera.__add_image_text cam p now = Ok img ->
  source img = source p
  /\ (forallb frame_op (ops p) = true -> forallb frame_op (ops img) = true).
Proof.
  unfold Camera.__add_image_text, Camera.format_temp. intro H.
  destruct (Camera.temp_min cam); simpl in H; [|discriminate H].
  destruct (Camera.temp_max cam); simpl in H; [|discriminate H].
  destruct (Camera.__interpolation_label cam); simpl in H; [|discriminate H].
  destruct (Camera.__colormap cam); simpl in H; [|discriminate H].
  destruct (Qeq_bool (now - Camera.timestamp cam) 0); [discriminate H|].
  injection H as <-. simpl. split; [reflexivity|].
  intro F. rewrite !forallb_app, F. reflexivity.
Qed.

Lemma generated_frame_ops (cam cam' : Camera.state) (o : getFrame_outcome)
    (t1 t2 : Q) (img : picture) :
  Camera.generate_frame_image cam o t1 t2 = (cam', Ok img) ->
  forallb frame_op (ops img) = true.
Proof.
  unfold Camera.generate_frame_image. intro H.
  destruct (Camera.__pull_raw_image cam o) as [cam1 [a|e]];
    [|discriminate H].
  destruct (Camera.__process_raw_image cam1 a) as [p|e] eqn:P; simpl in H;
    [|discriminate H].
  destruct (Camera.__add_image_text cam1 p t1) as [q|e] eqn:T;
    [|discriminate H].
  injection H as _ <-.
  apply (proj2 (add_image_text_ops _ _ _ _ T)).
  apply (proj2 (process_raw_image_ops _ _ _ P)).
Qed.

Lemma generated_frame_has_no_overlay (cam cam' : Camera.state)
    (o : getFrame_outcome) (t1 t2 : Q) (img : picture) (bs : list Button.t) :
  Camera.generate_frame_image cam o t1 t2 = (cam', Ok img) ->
  ~ has_buttons bs img /\ ~ has_notification img.
Proof.
  intro H. pose proof (generated_frame_ops _ _ _ _ _ _ H) as F.
  rewrite forallb_forall in F. split.
  - intros (op & I & J). exact (proj2 (frame_op_not_overlay bs op (F op J)) I).
  - intro J. exact (proj1 (frame_op_not_overlay bs _ (F _ J)) eq_refl).
Qed.

(** ** The snapshot flow *)

Lemma tick_generated (self : state) (i : tick_input) (cam : Camera.state)
    (img : picture) :
  Camera.generate_frame_image (camera self) (sensor i) (time_text i)
    (time_stamp i) = (cam, Ok img) ->
  tick self i
  = (__process_events
       (__update_window
          (if queue_save_snapshot self
           then __save_snapshot (generated self cam img) (save_stamp i)
                  (monotonic_save i)
           else __draw_buttons (generated self cam img))
          (monotonic_window i))
       (pointer i) (key i),
     Ok tt).
Proof.
  intro H. unfold tick, try_body. rewrite H. reflexivity.
Qed.



Lemma notification_is_no_button (bs : list Button.t) :
  ~ In notification (button_overlay bs).
Proof.
  intro I. unfold button_overlay in I. apply in_flat_map in I.
  destruct I as (b & _ & [E|[E|[]]]); discriminate E.
Qed.

Lemma draw_buttons_generated (self : state) (cam : Camera.state)
    (img : picture) :
  __draw_buttons (generated self cam img)
  = with_current_image
      (Some (drawn_over img (button_overlay (buttons self))))
      (generated self cam img).
Proof.
  unfold __draw_buttons.
  exact (draw_buttons_loop_overlay (buttons self) (generated self cam img)
           img eq_refl).
Qed.

(** The state [tick] leaves differs from the state after
    [__update_window] only by what the callbacks and the key did. *)
Lemma tick_display (self : state) (i : tick_input) (cam : Camera.state)
    (img : picture) :
  Camera.generate_frame_image (camera self) (sensor i) (time_text i)
    (time_stamp i) = (cam, Ok img) ->
  same_display
    (__update_window
       (if queue_save_snapshot self
        then __save_snapshot (generated self cam img) (save_stamp i)
               (monotonic_save i)
        else __draw_buttons (generated self cam img))
       (monotonic_window i))
    (fst (tick self i)).
Proof.
  intro G. rewrite (tick_generated self i cam img G). simpl fst.
  apply process_events_same_display.
Qed.

Lemma Qltb_false (a b : Q) : Qltb a b = false <-> ~ (a < b)%Q.
Proof.
  rewrite <- Qltb_true. destruct (Qltb a b); split; intro H;
    try discriminate; try reflexivity; try (exfalso; now apply H).
Qed.

(** C5 (as amended): on a tick that finds the save queued, the generated
    frame is written to disk without the button overlay, and the picture
    shown on that tick has no buttons either (it carries the notification
    when less than 1 second has passed since the write).  On a later tick
    less than 1 second after the save, the 'Snapshot Saved!' notification is
    drawn on top of the buttons: both are shown.  On a tick 1 second or more
    after the save, only the buttons are drawn and the time of the save is
    forgotten. *)
Theorem notification_is_drawn_over_the_buttons :
  forall (self : state) (i : tick_input) (cam : Camera.state) (img : picture),
    Camera.generate_frame_image (camera self) (sensor i) (time_text i)
      (time_stamp i) = (cam, Ok img) ->
    let self' := fst (tick self i) in
    let filename :=
      ("./thermal_snapshots/" ++ "snapshot_" ++ save_stamp i ++ ".jpg")%string in
    (queue_save_snapshot self = true ->
       written self' = written self ++ [(filename, Some img)]
       /\ (forall bs, ~ has_buttons bs img)
       /\ exists pic,
            shown self' = shown self ++ [Some pic]
            /\ pic = (if Qltb (monotonic_window i - monotonic_save i) 1
                      then drawn_over img [notification] else img)
            /\ forall bs, ~ has_buttons bs pic)
    /\ (queue_save_snapshot self = false ->
        forall t, snapshot_saved_at self = Some t ->
          (monotonic_window i - t < 1)%Q ->
          written self' = written self
          /\ snapshot_saved_at self' = Some t
          /\ shown self'
             = shown self
               ++ [Some (drawn_over img
                           (button_overlay (buttons self) ++ [notification]))])
    /\ (queue_save_snapshot self = false ->
        forall t, snapshot_saved_at self = Some t ->
          ~ (monotonic_window i - t < 1)%Q ->
          written self' = written self
          /\ snapshot_saved_at self' = None
          /\ shown self'
             = shown self
               ++ [Some (drawn_over img (button_overlay (buttons self)))])
    /\ (queue_save_snapshot self = false ->
        snapshot_saved_at self = None ->
          written self' = written self
          /\ snapshot_saved_at self' = None
          /\ shown self'
             = shown self
               ++ [Some (drawn_over img (button_overlay (buttons self)))]).
Proof.
  intros self i cam img G self' filename.
  pose proof (fun bs => proj1 (generated_frame_has_no_overlay _ _ _ _ _ _ bs G))
    as Clean.
  destruct (tick_display self i cam img G) as (_ & A & W & S & _).
  fold self' in A, W, S. rewrite A, W, S. clear A W S.
  split; [|split; [|split]].
  - (* the tick that saves *)
    intros ->. unfold __update_window. simpl.
    split; [|split; [exact Clean|]].
    { destruct (Qltb (monotonic_window i - monotonic_save i) 1); reflexivity. }
    eexists. split; [|split; [reflexivity|]].
    { destruct (Qltb (monotonic_window i - monotonic_save i) 1); reflexivity. }
    intros bs (op & I & J).
    destruct (Qltb (monotonic_window i - monotonic_save i) 1).
    + simpl in J. apply in_app_or in J. destruct J as [J|[<-|[]]].
      * apply (Clean bs). now exists op.
      * exact (notification_is_no_button bs I).
    + apply (Clean bs). now exists op.
  - (* within the second after a save *)
    intros -> t E L. rewrite draw_buttons_generated.
    unfold __update_window. simpl. rewrite E.
    apply Qltb_true in L. rewrite L. simpl.
    rewrite apply_drawn_over, drawn_over_app. repeat split. exact E.
  - (* once the second has passed *)
    intros -> t E L. rewrite draw_buttons_generated.
    unfold __update_window. simpl. rewrite E.
    apply Qltb_false in L. rewrite L. repeat split.
  - (* no save to report *)
    intros -> E. rewrite draw_buttons_generated.
    unfold __update_window. simpl. rewrite E. repeat split. exact E.
Qed.

(** The tick at time 2.5 after a save at time 2. *)
Lemma notification_is_drawn_over_the_buttons_witness :
  let self :=
    fst (start (main_window 0)
           [ramp_tick 1 [release_on_save]; ramp_tick 2 []]) in
  let i := ramp_tick (5 # 2) [] in
  let g :=
    Camera.generate_frame_image (camera self) (sensor i) (time_text i)
      (time_stamp i) in
  g = (fst g, Ok (the_picture (snd g)))
  /\ queue_save_snapshot self = false
  /\ snapshot_saved_at self = Some 2%Q
  /\ (monotonic_window i - 2 < 1)%Q
  /\ shown (fst (tick self i))
     = shown self
       ++ [Some (drawn_over (the_picture (snd g))
                   (button_overlay (buttons self) ++ [notification]))].
Proof.
  intros self i g.
  assert (G : g = (fst g, Ok (the_picture (snd g))))
    by (vm_compute; reflexivity).
  assert (Q : queue_save_snapshot self = false) by (vm_compute; reflexivity).
  assert (E : snapshot_saved_at self = Some 2%Q) by (vm_compute; reflexivity).
  assert (L : (monotonic_window i - 2 < 1)%Q) by reflexivity.
  refine (conj G (conj Q (conj E (conj L _)))).
  pose proof (notification_is_drawn_over_the_buttons self i (fst g)
                (the_picture (snd g)) G) as (_ & Within & _).
  exact (proj2 (proj2 (Within Q 2%Q E L))).
Defined.

(** C5 (as stated) fails.  A release on Save during the first tick queues
    the save; the second tick, at time 2, writes the file; the picture shown
    by the third tick, at time 2.5, carries the notification and the
    buttons as well. *)
Lemma buttons_are_drawn_under_the_notification :
  let run :=
    fst (start (main_window 0)
           [ramp_tick 1 [release_on_save]; ramp_tick 2 [];
            ramp_tick (5 # 2) []]) in
  List.length (written run) = 1%nat
  /\ snapshot_saved_at run = Some 2%Q
  /\ exists pic,
       nth_error (shown run) 2 = Some (Some pic)
       /\ has_notification pic
       /\ has_buttons default_buttons pic
       /\ In (Rectangle (0, 550) (80, 600) (200, 200, 200) (-1)) (ops pic)
       /\ In (PutText (Str "Save") (20, 580) (6 # 10) (0, 0, 0) 2) (ops pic).
Proof.
  split; [vm_compute; reflexivity|].
  split; [vm_compute; reflexivity|].
  eexists. split; [vm_compute; reflexivity|].
  assert (R : In (Rectangle (0, 550) (80, 600) (200, 200, 200) (-1))
                (button_overlay default_buttons)) by (left; reflexivity).
  split; [|split; [|split]].
  - unfold has_notification. in_list.
  - exists (Rectangle (0, 550) (80, 600) (200, 200, 200) (-1)).
    split; [exact R|]. in_list.
  - in_list.
  - in_list.
Qed.

(** ** Faults in the loop *)

Lemma driver_fault_reaches_the_handler (self : state) (i : tick_input)
    (e : exn) (ws : list (nat * float64)) :
  sensor i = Failed e ws ->
  exn_cls e <> ValueError -> exn_cls e <> OSError ->
  snd (try_body self i) = Raise e.
Proof.
  intros E V O. unfold try_body, Camera.generate_frame_image. rewrite E.
  simpl. unfold Camera.pull_except.
  destruct (exn_cls e); try reflexivity; congruence.
Qed.

Lemma tick_of_try_body (self : state) (i : tick_input) :
  snd (tick self i)
  = match snd (try_body self i) with
    | Ok _ => Ok tt
    | Raise e =>
        match exn_cls e with
        | RuntimeError => except_RuntimeError e
        | _ => Raise e
        end
    end.
Proof.
  unfold tick. destruct (try_body self i) as [s [u|e]]; simpl;
    [reflexivity|]. destruct (exn_cls e); reflexivity.
Qed.

(** A RuntimeError without the attribute [message] leaves the loop as an
    AttributeError, whatever its text. *)
Lemma plain_runtime_error_is_not_caught (self : state) (i : tick_input)
    (e : exn) (ws : list (nat * float64)) :
  sensor i = Failed e ws ->
  exn_cls e = RuntimeError -> exn_message e = None ->
  snd (tick self i)
  = Raise (builtin AttributeError
             "'RuntimeError' object has no attribute 'message'").
Proof.
  intros E C M. rewrite tick_of_try_body.
  rewrite (driver_fault_reaches_the_handler self i e ws E) by congruence.
  rewrite C. unfold except_RuntimeError. now rewrite M.
Qed.

(** A RuntimeError that does carry [message = 'Too many retries'] is
    passed over. *)
Lemma runtime_error_with_message_is_caught (self : state) (i : tick_input)
    (e : exn) (ws : list (nat * float64)) :
  sensor i = Failed e ws ->
  exn_cls e = RuntimeError -> exn_message e = Some "Too many retries"%string ->
  snd (tick self i) = Ok tt.
Proof.
  intros E C M. rewrite tick_of_try_body.
  rewrite (driver_fault_reaches_the_handler self i e ws E) by congruence.
  rewrite C. unfold except_RuntimeError. now rewrite M.
Qed.

(** A fault of any class the file has no handler for leaves the loop. *)
Lemma other_faults_leave_the_loop (self : state) (i : tick_input) (e : exn)
    (ws : list (nat * float64)) :
  sensor i = Failed e ws ->
  exn_cls e <> ValueError -> exn_cls e <> OSError ->
  exn_cls e <> RuntimeError ->
  snd (tick self i) = Raise e.
Proof.
  intros E V O R. rewrite tick_of_try_body.
  rewrite (driver_fault_reaches_the_handler self i e ws E V O).
  destruct (exn_cls e); try reflexivity. congruence.
Qed.

(** C8: the code at a failing input.  When the driver raises
    [RuntimeError('Too many retries')] on the first tick, the handler reads
    [error.message], which that exception does not have: [start] ends with
    an AttributeError, the second tick is never run and nothing is shown. *)
Theorem too_many_retries_ends_the_loop :
  let run :=
    start (main_window 0) [failing_tick 1 too_many_retries; ramp_tick 2 []] in
  exn_cls too_many_retries = RuntimeError
  /\ exn_args too_many_retries = ["Too many retries"%string]
  /\ snd run
     = Raised (builtin AttributeError
                 "'RuntimeError' object has no attribute 'message'")
  /\ shown (fst run) = []
  /\ is_exit_requested (fst run) = false.
Proof.
  repeat split.
Qed.

(** * Further properties of the code *)

(** ** The selections and their lookups *)

Lemma index_inside {A} (l : list A) (i : Z) :
  0 <= i < Z.of_nat (List.length l) ->
  exists a, index l i = Ok a /\ nth_error l (Z.to_nat i) = Some a.
Proof.
  intro H. unfold index.
  replace (i <? 0) with false by (symmetry; apply Z.ltb_ge; lia).
  replace (0 <=? i) with true by (symmetry; apply Z.leb_le; lia).
  replace (i <? Z.of_nat (List.length l)) with true
    by (symmetry; apply Z.ltb_lt; lia).
  simpl. destruct (nth_error l (Z.to_nat i)) as [a|] eqn:E.
  - exists a. split; reflexivity.
  - apply nth_error_None in E. lia.
Qed.

Lemma index_outside {A} (l : list A) (i : Z) :
  Z.of_nat (List.length l) <= i ->
  index l i = Raise (builtin IndexError "list index out of range").
Proof.
  intro H. unfold index.
  replace (i <? 0) with false by (symmetry; apply Z.ltb_ge; lia).
  replace (i <? Z.of_nat (List.length l)) with false
    by (symmetry; apply Z.ltb_ge; lia).
  now rewrite andb_false_r.
Qed.

Lemma lookups_succeed (cam : Camera.state) :
  in_range cam ->
  exists cmap ip label,
    Camera.__colormap cam = Ok cmap
    /\ Camera.__interpolation cam = Ok ip
    /\ Camera.__interpolation_label cam = Ok label.
Proof.
  intros [C I].
  destruct (index_inside Camera.colormap_list _ C) as (cmap & E1 & _).
  destruct (index_inside Camera.interpolation_list _ I) as (ip & E2 & _).
  destruct (index_inside Camera.interpolation_labels_list
              (Camera.interpolation_index cam) I) as (label & E3 & _).
  now exists cmap, ip, label.
Qed.

Lemma cycle_colormap_in_range (cam : Camera.state) :
  in_range cam -> in_range (Camera.cycle_colormap cam).
Proof.
  intros [C I]. pose proof (cycle_colormap_index cam C) as E.
  split.
  - rewrite E. apply Z.mod_pos_bound. reflexivity.
  - unfold Camera.cycle_colormap. simpl.
    destruct (Camera.colormap_index cam + 1 >=? 9); exact I.
Qed.

Lemma cycle_interpolation_in_range (cam : Camera.state) :
  in_range cam -> in_range (Camera.cycle_interpolation cam).
Proof.
  intros [C I]. pose proof (cycle_interpolation_index cam I) as E.
  split.
  - unfold Camera.cycle_interpolation. simpl.
    destruct (Camera.interpolation_index cam + 1 >=? 7); exact C.
  - rewrite E. apply Z.mod_pos_bound. reflexivity.
Qed.

Lemma same_readings_refl (c : Camera.state) : same_readings c c.
Proof.
  repeat split.
Qed.

Lemma same_readings_trans (c1 c2 c3 : Camera.state) :
  same_readings c1 c2 -> same_readings c2 c3 -> same_readings c1 c3.
Proof.
  unfold same_readings.
  intros (A & B & C & D & E) (A' & B' & C' & D' & E').
  repeat split; congruence.
Qed.

Lemma call_camera (cb : action) (s : state) :
  same_readings (camera s) (camera (call cb s))
  /\ (in_range (camera s) -> in_range (camera (call cb s))).
Proof.
  destruct cb; simpl.
  - split; [apply same_readings_refl|auto].
  - split; [|apply cycle_colormap_in_range].
    unfold Camera.cycle_colormap. simpl.
    destruct (Camera.colormap_index (camera s) + 1 >=? 9); repeat split.
  - split; [|apply cycle_interpolation_in_range].
    unfold Camera.cycle_interpolation. simpl.
    destruct (Camera.interpolation_index (camera s) + 1 >=? 7); repeat split.
  - split; [apply same_readings_refl|auto].
Qed.

Lemma click_loop_camera (bs : list Button.t) (x y : Z) (s : state) :
  same_readings (camera s) (camera (click_loop call bs x y s))
  /\ (in_range (camera s) -> in_range (camera (click_loop call bs x y s))).
Proof.
  revert s. induction bs as [|b bs IH]; intro s; simpl.
  - split; [apply same_readings_refl|auto].
  - destruct (hit b x y); [|apply IH].
    destruct (call_camera (Button.callback b) s) as [A B].
    destruct (IH (call (Button.callback b) s)) as [A' B'].
    split; [eapply same_readings_trans; eassumption|auto].
Qed.

Lemma process_events_camera (evs : list (Z * Z * Z)) (k : Z) (s : state) :
  same_readings (camera s) (camera (__process_events s evs k))
  /\ (in_range (camera s) -> in_range (camera (__process_events s evs k))).
Proof.
  unfold __process_events.
  assert (F : forall s,
             same_readings (camera s)
               (camera (fold_left
                          (fun s ev => __process_click_input s (fst (fst ev))
                                         (snd (fst ev)) (snd ev)) evs s))
             /\ (in_range (camera s) ->
                 in_range
                   (camera (fold_left
                              (fun s ev =>
                                 __process_click_input s (fst (fst ev))
                                   (snd (fst ev)) (snd ev)) evs s)))).
  { induction evs as [|ev evs IH]; intro s0; simpl.
    - split; [apply same_readings_refl|auto].
    - destruct (IH (__process_click_input s0 (fst (fst ev)) (snd (fst ev))
                      (snd ev))) as [A B].
      assert (S : same_readings (camera s0)
                    (camera (__process_click_input s0 (fst (fst ev))
                               (snd (fst ev)) (snd ev)))
                  /\ (in_range (camera s0) ->
                      in_range
                        (camera (__process_click_input s0 (fst (fst ev))
                                   (snd (fst ev)) (snd ev))))).
      { unfold __process_click_input.
        destruct (negb (fst (fst ev) =? EVENT_LBUTTONUP)).
        - split; [apply same_readings_refl|auto].
        - apply click_loop_camera. }
      destruct S as [A' B'].
      split; [eapply same_readings_trans; eassumption|auto]. }
  destruct (F s) as [A B].
  destruct (Z.land k 255 =? 27); split; auto.
Qed.

(** X1: whatever pointer events and key a tick brings, and whatever the
    buttons of the window, the callbacks leave both selections inside their
    catalogues, so the three lookups [__colormap], [__interpolation] and
    [__interpolation_label] return an entry and never raise IndexError. *)
Theorem events_keep_selections_valid :
  forall (self : state) (evs : list (Z * Z * Z)) (k : Z),
    in_range (camera self) ->
    let cam := camera (__process_events self evs k) in
    in_range cam
    /\ exists cmap ip label,
         Camera.__colormap cam = Ok cmap
         /\ Camera.__interpolation cam = Ok ip
         /\ Camera.__interpolation_label cam = Ok label
         /\ nth_error Camera.colormap_list
              (Z.to_nat (Camera.colormap_index cam)) = Some cmap
         /\ nth_error Camera.interpolation_labels_list
              (Z.to_nat (Camera.interpolation_index cam)) = Some label.
Proof.
  intros self evs k H cam.
  assert (R : in_range cam) by (apply process_events_camera; exact H).
  split; [exact R|]. destruct R as [C I].
  destruct (index_inside Camera.colormap_list _ C) as (cmap & E1 & N1).
  destruct (index_inside Camera.interpolation_list _ I) as (ip & E2 & _).
  destruct (index_inside Camera.interpolation_labels_list
              (Camera.interpolation_index cam) I) as (label & E3 & N3).
  exists cmap, ip, label. repeat split; assumption.
Qed.

(** Two releases on Colormap and one on Interpolation in the window of
    [main]. *)
Lemma events_keep_selections_valid_witness :
  let evs := [(EVENT_LBUTTONUP, 100, 560); (EVENT_LBUTTONUP, 100, 560);
              (EVENT_LBUTTONUP, 300, 560)] in
  in_range (camera (main_window 0))
  /\ in_range (camera (__process_events (main_window 0) evs (-1))).
Proof.
  intro evs.
  assert (H : in_range (camera (main_window 0)))
    by (unfold in_range; simpl; lia).
  refine (conj H _).
  exact (proj1 (events_keep_selections_valid (main_window 0) evs (-1) H)).
Defined.

(** ** A delivered frame *)

Lemma rescaled_length (f : list float64) (Tmin Tmax : float64) :
  List.length (Camera.rescaled f Tmin Tmax) = List.length f.
Proof.
  unfold Camera.rescaled, nan_to_num. now rewrite !length_map.
Qed.

Lemma temps_to_rescaled_uints_768 (f : list float64) (Tmin Tmax : float64) :
  List.length f = 768%nat ->
  Camera.__temps_to_rescaled_uints f Tmin Tmax
  = Ok (map uint8 (Camera.rescaled f Tmin Tmax)).
Proof.
  intro H. unfold Camera.__temps_to_rescaled_uints.
  apply set_shape_768. now rewrite length_map, rescaled_length.
Qed.

Lemma temps_to_rescaled_uints_other (f : list float64) (Tmin Tmax : float64) :
  List.length f <> 768%nat ->
  Camera.__temps_to_rescaled_uints f Tmin Tmax
  = Raise (builtin ValueError "cannot reshape array").
Proof.
  intro H. unfold Camera.__temps_to_rescaled_uints, set_shape.
  rewrite length_map, rescaled_length.
  replace (List.length f =? 24 * 32)%nat with false; [reflexivity|].
  symmetry. apply Nat.eqb_neq. exact H.
Qed.

Lemma reduce_768 (op : float64 -> float64 -> float64) (f : list float64) :
  List.length f = 768%nat -> exists v, reduce op f = Ok v.
Proof.
  destruct f as [|a f]; [discriminate|]. intros _. now eexists.
Qed.

Lemma pull_filled (cam : Camera.state) (frame : list float64) :
  sized cam -> List.length frame = 768%nat ->
  exists mn mx,
    Np.min frame = Ok mn /\ Np.max frame = Ok mx
    /\ Camera.__pull_raw_image cam (Filled frame)
       = (after_read cam frame mn mx,
          Ok (U8Grid (map uint8 (Camera.rescaled frame mn mx)))).
Proof.
  intros S L. unfold sized in S.
  destruct (reduce_768 minimum frame L) as [mn Hmn].
  destruct (reduce_768 maximum frame L) as [mx Hmx].
  exists mn, mx. split; [exact Hmn|]. split; [exact Hmx|].
  unfold Camera.__pull_raw_image.
  cbn [Camera.blank_image Camera.with_blank_image].
  rewrite (store_same_length (Camera.blank_image cam) frame)
    by congruence.
  unfold Np.min, Np.max in *. rewrite Hmn.
  cbn [Camera.blank_image Camera.with_temp_min]. rewrite Hmx.
  cbn [Camera.blank_image Camera.with_temp_max].
  rewrite (temps_to_rescaled_uints_768 frame mn mx L). reflexivity.
Qed.

Lemma process_succeeds (cam : Camera.state) (px : list Z) :
  in_range cam ->
  exists p, Camera.__process_raw_image cam (U8Grid px) = Ok p
            /\ source p = U8Grid px.
Proof.
  intro R. destruct (lookups_succeed cam R) as (cmap & ip & label & C & I & _).
  unfold Camera.__process_raw_image. rewrite C.
  destruct (Camera.interpolation_index cam =? 5);
    [|destruct (Camera.interpolation_index cam =? 6)];
    simpl; try rewrite I; simpl;
    destruct (Camera.use_smoothing_filter cam); eexists; split; reflexivity.
Qed.

Lemma put_lines_ops (lines : list text) (x y shiftY : Z) (p : picture) :
  Camera.put_lines lines x y shiftY p
  = drawn_over p (line_ops lines x y shiftY).
Proof.
  revert y p. induction lines as [|l lines IH]; intros y p; simpl.
  - now rewrite drawn_over_nil.
  - rewrite IH, apply_drawn_over, drawn_over_app. reflexivity.
Qed.

Lemma add_image_text_succeeds (cam : Camera.state) (p : picture) (now : Q)
    (mn mx : float64) (label cmap : string) :
  Camera.temp_min cam = Some mn -> Camera.temp_max cam = Some mx ->
  Camera.__interpolation_label cam = Ok label ->
  Camera.__colormap cam = Ok cmap ->
  ~ (now == Camera.timestamp cam)%Q ->
  Camera.__add_image_text cam p now
  = Ok (drawn_over p (line_ops (text_lines cam mn mx label cmap now) 30 30 22)).
Proof.
  intros A B C D E. unfold Camera.__add_image_text, Camera.format_temp.
  rewrite A, B, C, D. cbn [bind].
  rewrite Qeq_bool_false by (intro Z; apply E; lra).
  now rewrite put_lines_ops.
Qed.

Lemma process_has_no_text (cam : Camera.state) (a : array) (p : picture) :
  Camera.__process_raw_image cam a = Ok p -> filter is_text (ops p) = [].
Proof.
  intro H.
  destruct (process_shapes cam a p H) as (px & cmap & _ & _ & _ & O).
  destruct O as [O|[O|[ip O]]]; rewrite O; unfold smoothing;
    destruct (Camera.use_smoothing_filter cam); reflexivity.
Qed.

Lemma line_ops_are_text (lines : list text) (x y shiftY : Z) :
  filter is_text (line_ops lines x y shiftY) = line_ops lines x y shiftY.
Proof.
  revert y. induction lines as [|l lines IH]; intro y; simpl;
    [reflexivity|]. now rewrite IH.
Qed.

Lemma generate_filled (cam : Camera.state) (frame : list float64)
    (now stamp : Q) :
  in_range cam -> sized cam -> List.length frame = 768%nat ->
  ~ (now == Camera.timestamp cam)%Q ->
  exists mn mx cmap label p,
    Np.min frame = Ok mn /\ Np.max frame = Ok mx
    /\ Camera.__colormap cam = Ok cmap
    /\ Camera.__interpolation_label cam = Ok label
    /\ Camera.__process_raw_image cam
         (U8Grid (map uint8 (Camera.rescaled frame mn mx))) = Ok p
    /\ Camera.generate_frame_image cam (Filled frame) now stamp
       = (stamped stamp (after_read cam frame mn mx),
          Ok (drawn_over p
                (line_ops (text_lines cam mn mx label cmap now) 30 30 22))).
Proof.
  intros R S L T.
  destruct (pull_filled cam frame S L) as (mn & mx & Hmn & Hmx & P).
  destruct (lookups_succeed cam R) as (cmap & ip & label & C & I & B).
  destruct (process_succeeds cam
              (map uint8 (Camera.rescaled frame mn mx)) R)
    as (p & Hp & _).
  exists mn, mx, cmap, label, p.
  repeat (split; [assumption|]).
  unfold Camera.generate_frame_image. rewrite P.
  change (Camera.__process_raw_image (after_read cam frame mn mx))
    with (Camera.__process_raw_image cam).
  rewrite Hp. cbn [bind].
  rewrite (add_image_text_succeeds (after_read cam frame mn mx) p now mn mx
             label cmap eq_refl eq_refl B C T).
  reflexivity.
Qed.

(** With the selections inside their catalogues the float64 buffer is
    refused by [cv2.applyColorMap]. *)
Lemma process_refuses_buffer (cam : Camera.state) (buf : list float64) :
  in_range cam ->
  Camera.__process_raw_image cam (F64Buf buf) = Raise colormap_refusal.
Proof.
  intro R. destruct (lookups_succeed cam R) as (cmap & ip & label & C & I & _).
  unfold Camera.__process_raw_image. rewrite C.
  destruct (Camera.interpolation_index cam =? 5);
    [|destruct (Camera.interpolation_index cam =? 6)]; reflexivity.
Qed.

Lemma pull_caught (cam : Camera.state) (e : exn) (ws : list (nat * float64)) :
  caught e ->
  Camera.__pull_raw_image cam (Failed e ws)
  = (Camera.with_blank_image (write_all ws (Camera.blank_image cam)) cam,
     Ok (F64Buf (write_all ws (Camera.blank_image cam)))).
Proof.
  intro K. unfold Camera.__pull_raw_image, Camera.pull_except.
  cbv zeta. destruct K as [K|K]; rewrite K; reflexivity.
Qed.

(** A fault [__pull_raw_image] catches ends [generate_frame_image] with
    cv2.error: the buffer handed on is not an 8-bit array. *)
Lemma generate_caught (cam : Camera.state) (e : exn)
    (ws : list (nat * float64)) (now stamp : Q) :
  in_range cam -> caught e ->
  Camera.generate_frame_image cam (Failed e ws) now stamp
  = (Camera.with_blank_image (write_all ws (Camera.blank_image cam)) cam,
     Raise colormap_refusal).
Proof.
  intros R K. unfold Camera.generate_frame_image.
  rewrite (pull_caught cam e ws K).
  change (Camera.__process_raw_image
            (Camera.with_blank_image (write_all ws (Camera.blank_image cam))
               cam))
    with (Camera.__process_raw_image cam).
  now rewrite (process_refuses_buffer cam _ R).
Qed.

(** X2: when the selections are inside their catalogues, the buffer has
    768 entries and the clock has moved since the last frame,
    [generate_frame_image] returns a picture for every delivered frame of
    768 samples, whatever their values (NaN and infinities included); the
    camera then records the frame's own minimum and maximum, holds the frame
    in the shared buffer, carries the new time stamp, and the picture is
    made from the rescaled grid of that frame. *)
Theorem delivered_frame_is_generated :
  forall (cam : Camera.state) (frame : list float64) (now stamp : Q),
    in_range cam -> sized cam -> List.length frame = 768%nat ->
    ~ (now == Camera.timestamp cam)%Q ->
    exists cam' img mn mx,
      Camera.generate_frame_image cam (Filled frame) now stamp = (cam', Ok img)
      /\ Np.min frame = Ok mn /\ Np.max frame = Ok mx
      /\ Camera.temp_min cam' = Some mn /\ Camera.temp_max cam' = Some mx
      /\ Camera.blank_image cam' = frame
      /\ Camera.timestamp cam' = stamp
      /\ Camera.current_frame_processed cam' = true
      /\ Camera.colormap_index cam' = Camera.colormap_index cam
      /\ Camera.interpolation_index cam' = Camera.interpolation_index cam
      /\ source img = U8Grid (map uint8 (Camera.rescaled frame mn mx)).
Proof.
  intros cam frame now stamp R S L T.
  destruct (generate_filled cam frame now stamp R S L T)
    as (mn & mx & cmap & label & p & Hmn & Hmx & _ & _ & Hp & G).
  eexists _, _, mn, mx. split; [exact G|].
  repeat (split; [first [assumption | reflexivity]|]).
  exact (proj1 (process_raw_image_ops _ _ _ Hp)).
Qed.

(** A frame of NaN samples read by the camera at start-up. *)
Lemma delivered_frame_is_generated_witness :
  let cam := Camera.init 0 in
  let frame := repeat NaN 768 in
  in_range cam /\ sized cam /\ List.length frame = 768%nat
  /\ ~ (1 == Camera.timestamp cam)%Q
  /\ exists cam' img,
       Camera.generate_frame_image cam (Filled frame) 1 1 = (cam', Ok img)
       /\ Camera.temp_min cam' = Some NaN.
Proof.
  intros cam frame.
  assert (R : in_range cam) by (unfold in_range; simpl; lia).
  assert (S : sized cam) by reflexivity.
  assert (L : List.length frame = 768%nat) by reflexivity.
  assert (T : ~ (1 == Camera.timestamp cam)%Q) by (intro H; discriminate H).
  refine (conj R (conj S (conj L (conj T _)))).
  destruct (delivered_frame_is_generated cam frame 1 1 R S L T)
    as (cam' & img & mn & mx & G & Hmn & _ & Tm & _).
  exists cam', img. split; [exact G|].
  rewrite Tm. f_equal.
  assert (E : Np.min frame = Ok NaN) by (vm_compute; reflexivity).
  rewrite E in Hmn. injection Hmn as <-. reflexivity.
Defined.

(** X3: on a delivered frame the text drawn on the picture is six lines, at
    x = 30 and y = 30, 52, 74, 96, 118, 140, in white: the minimum and the
    maximum of the frame just read, the label and the colormap name of the
    current selections, the smoothing flag, and 1 / (now - time stamp of the
    previous call) as the frame rate. *)
Theorem overlay_reports_the_frame :
  forall (cam : Camera.state) (frame : list float64) (now stamp : Q),
    in_range cam -> sized cam -> List.length frame = 768%nat ->
    ~ (now == Camera.timestamp cam)%Q ->
    exists cam' img mn mx cmap label,
      Camera.generate_frame_image cam (Filled frame) now stamp = (cam', Ok img)
      /\ Np.min frame = Ok mn /\ Np.max frame = Ok mx
      /\ nth_error Camera.colormap_list
           (Z.to_nat (Camera.colormap_index cam)) = Some cmap
      /\ nth_error Camera.interpolation_labels_list
           (Z.to_nat (Camera.interpolation_index cam)) = Some label
      /\ filter is_text (ops img)
         = [PutText (Fmt "Tmin: " "+.1f" mn) (30, 30) (6 # 10)
              (255, 255, 255) 2;
            PutText (Fmt "Tmax: " "+.1f" mx) (30, 52) (6 # 10)
              (255, 255, 255) 2;
            PutText (Str ("Interp.: " ++ label)) (30, 74) (6 # 10)
              (255, 255, 255) 2;
            PutText (Str ("Colormap: " ++ cmap)) (30, 96) (6 # 10)
              (255, 255, 255) 2;
            PutText
              (Str ("Filtered: "
                    ++ if Camera.use_smoothing_filter cam
                       then "True" else "False"))
              (30, 118) (6 # 10) (255, 255, 255) 2;
            PutText
              (Fmt "FPS: " ".1f" (Fin (1 / (now - Camera.timestamp cam))))
              (30, 140) (6 # 10) (255, 255, 255) 2].
Proof.
  intros cam frame now stamp R S L T.
  destruct (generate_filled cam frame now stamp R S L T)
    as (mn & mx & cmap & label & p & Hmn & Hmx & C & B & Hp & G).
  exists (stamped stamp (after_read cam frame mn mx)).
  eexists. exists mn, mx, cmap, label.
  split; [exact G|]. split; [exact Hmn|]. split; [exact Hmx|].
  destruct R as [RC RI].
  destruct (index_inside Camera.colormap_list _ RC) as (c' & E1 & N1).
  destruct (index_inside Camera.interpolation_labels_list
              (Camera.interpolation_index cam) RI) as (l' & E2 & N2).
  unfold Camera.__colormap in C. unfold Camera.__interpolation_label in B.
  rewrite E1 in C. rewrite E2 in B.
  injection C as ->. injection B as ->.
  split; [exact N1|]. split; [exact N2|].
  cbn [ops drawn_over]. rewrite filter_app, (process_has_no_text _ _ _ Hp).
  rewrite line_ops_are_text. reflexivity.
Qed.

(** The ramp frame read by the camera at start-up, at time 1/8. *)
Lemma overlay_reports_the_frame_witness :
  let cam := Camera.init 0 in
  in_range cam /\ sized cam /\ List.length ramp = 768%nat
  /\ ~ (1 # 8 == Camera.timestamp cam)%Q
  /\ exists cam' img,
       Camera.generate_frame_image cam (Filled ramp) (1 # 8) (1 # 8)
       = (cam', Ok img)
       /\ List.length (filter is_text (ops img)) = 6%nat.
Proof.
  intro cam.
  assert (R : in_range cam) by (unfold in_range; simpl; lia).
  assert (S : sized cam) by reflexivity.
  assert (L : List.length ramp = 768%nat) by reflexivity.
  assert (T : ~ (1 # 8 == Camera.timestamp cam)%Q)
    by (intro H; discriminate H).
  refine (conj R (conj S (conj L (conj T _)))).
  destruct (overlay_reports_the_frame cam ramp (1 # 8) (1 # 8) R S L T)
    as (cam' & img & mn & mx & cmap & label & G & _ & _ & _ & _ & F).
  exists cam', img. split; [exact G|]. rewrite F. reflexivity.
Defined.

(** ** Faults of the acquisition *)

(** X4: a fault that [__pull_raw_image] catches (ValueError or OSError)
    yields no picture.  The shared float buffer is handed on, holding the
    last frame with whatever entries the driver overwrote before it raised
    (zeros while no frame has been read); [cv2.applyColorMap] refuses it
    and [generate_frame_image] raises cv2.error, which [start] does not
    catch: the loop ends on that tick with nothing shown and nothing
    written.  The extremes recorded and the time stamp stay as they
    were. *)
Theorem caught_fault_ends_the_loop :
  forall (self : state) (i : tick_input) (rest : list tick_input) (e : exn)
         (ws : list (nat * float64)),
    is_exit_requested self = false ->
    in_range (camera self) ->
    sensor i = Failed e ws -> caught e ->
    let run := start self (i :: rest) in
    Camera.__pull_raw_image (camera self) (sensor i)
    = (Camera.with_blank_image
         (write_all ws (Camera.blank_image (camera self))) (camera self),
       Ok (F64Buf (write_all ws (Camera.blank_image (camera self)))))
    /\ snd (Camera.generate_frame_image (camera self) (sensor i) (time_text i)
              (time_stamp i))
       = Raise colormap_refusal
    /\ snd run = Raised colormap_refusal
    /\ shown (fst run) = shown self
    /\ written (fst run) = written self
    /\ Camera.blank_image (camera (fst run))
       = write_all ws (Camera.blank_image (camera self))
    /\ Camera.temp_min (camera (fst run)) = Camera.temp_min (camera self)
    /\ Camera.temp_max (camera (fst run)) = Camera.temp_max (camera self)
    /\ Camera.timestamp (camera (fst run)) = Camera.timestamp (camera self).
Proof.
  intros self i rest e ws X R E K run.
  pose proof (generate_caught (camera self) e ws (time_text i) (time_stamp i)
                R K) as G.
  rewrite <- E in G.
  split; [rewrite E; now apply pull_caught|].
  split; [now rewrite G|].
  unfold run. cbn [start]. rewrite X. unfold tick, try_body. rewrite G.
  repeat split.
Qed.

(** The ramp frame, then an OSError after the driver overwrote entry 0:
    the second tick ends the loop. *)
Lemma caught_fault_ends_the_loop_witness :
  let e := builtin OSError "[Errno 121] Remote I/O error" in
  let i := mk_input (Failed e [(0%nat, Fin 99)]) 2 2 "2024-05-01_12-00-00"
             2 2 [] (-1) in
  let self := fst (start (main_window 0) [ramp_tick 1 []]) in
  is_exit_requested self = false
  /\ in_range (camera self)
  /\ sensor i = Failed e [(0%nat, Fin 99)] /\ caught e
  /\ snd (start self [i; ramp_tick 3 []]) = Raised colormap_refusal
  /\ List.length (shown (fst (start self [i; ramp_tick 3 []]))) = 1%nat
  /\ Camera.blank_image (camera (fst (start self [i; ramp_tick 3 []])))
     = Fin 99 :: tl ramp.
Proof.
  intros e i self.
  assert (X : is_exit_requested self = false) by (vm_compute; reflexivity).
  assert (R : in_range (camera self))
    by (repeat split; vm_compute; first [reflexivity | discriminate]).
  assert (E : sensor i = Failed e [(0%nat, Fin 99)]) by reflexivity.
  assert (K : caught e) by (right; reflexivity).
  refine (conj X (conj R (conj E (conj K _)))).
  pose proof (caught_fault_ends_the_loop self i [ramp_tick 3 []] e
                [(0%nat, Fin 99)] X R E K)
    as (_ & _ & Hend & Hshown & _ & Hbuf & _).
  refine (conj Hend (conj _ _)).
  - rewrite Hshown. vm_compute. reflexivity.
  - rewrite Hbuf. vm_compute. reflexivity.
Defined.

(** X6: when the clock read for the frame rate equals the time stamp of
    the previous call, a delivered frame is read and its extremes recorded,
    but computing 1 / (now - timestamp) raises ZeroDivisionError: no picture
    is returned, the time stamp is not renewed, and the loop ends. *)
Theorem stalled_clock_ends_the_loop :
  forall (self : state) (i : tick_input) (rest : list tick_input)
         (frame : list float64),
    is_exit_requested self = false ->
    in_range (camera self) -> sized (camera self) ->
    sensor i = Filled frame -> List.length frame = 768%nat ->
    (time_text i == Camera.timestamp (camera self))%Q ->
    let g :=
      Camera.generate_frame_image (camera self) (sensor i) (time_text i)
        (time_stamp i) in
    snd g = Raise (builtin ZeroDivisionError "float division by zero")
    /\ Camera.timestamp (fst g) = Camera.timestamp (camera self)
    /\ Camera.blank_image (fst g) = frame
    /\ Camera.temp_min (fst g) <> None
    /\ snd (start self (i :: rest))
       = Raised (builtin ZeroDivisionError "float division by zero")
    /\ shown (fst (start self (i :: rest))) = shown self.
Proof.
  intros self i rest frame X R S E L T g.
  destruct (pull_filled (camera self) frame S L) as (mn & mx & Hmn & Hmx & P).
  destruct (lookups_succeed (camera self) R)
    as (cmap & ip & label & C & I & B).
  destruct (process_succeeds (camera self)
              (map uint8 (Camera.rescaled frame mn mx)) R)
    as (p & Hp & _).
  assert (G : g = (after_read (camera self) frame mn mx,
                   Raise (builtin ZeroDivisionError "float division by zero"))).
  { unfold g. rewrite E. unfold Camera.generate_frame_image. rewrite P.
    change (Camera.__process_raw_image
              (after_read (camera self) frame mn mx))
      with (Camera.__process_raw_image (camera self)).
    rewrite Hp. cbn [bind].
    unfold Camera.__add_image_text, Camera.format_temp.
    change (Camera.__interpolation_label
              (after_read (camera self) frame mn mx))
      with (Camera.__interpolation_label (camera self)).
    change (Camera.__colormap (after_read (camera self) frame mn mx))
      with (Camera.__colormap (camera self)).
    rewrite B, C. cbn [bind Camera.temp_min Camera.temp_max after_read
                         Camera.with_current_frame_processed
                         Camera.with_temp_max Camera.with_temp_min
                         Camera.timestamp Camera.with_blank_image].
    replace (Qeq_bool (time_text i - Camera.timestamp (camera self)) 0)
      with true; [reflexivity|].
    symmetry. apply Qeq_bool_iff. rewrite T. ring. }
  rewrite G. cbn [fst snd].
  split; [reflexivity|]. split; [reflexivity|]. split; [reflexivity|].
  split; [discriminate|].
  cbn [start]. rewrite X. unfold tick, try_body. fold g. rewrite G.
  repeat split.
Qed.

(** The first tick of the window of [main] with the clock still at 0. *)
Lemma stalled_clock_ends_the_loop_witness :
  let i := ramp_tick 0 [] in
  is_exit_requested (main_window 0) = false
  /\ in_range (camera (main_window 0)) /\ sized (camera (main_window 0))
  /\ sensor i = Filled ramp /\ List.length ramp = 768%nat
  /\ (time_text i == Camera.timestamp (camera (main_window 0)))%Q
  /\ snd (start (main_window 0) [i])
     = Raised (builtin ZeroDivisionError "float division by zero").
Proof.
  intro i.
  assert (X : is_exit_requested (main_window 0) = false) by reflexivity.
  assert (R : in_range (camera (main_window 0)))
    by (unfold in_range; simpl; lia).
  assert (S : sized (camera (main_window 0))) by reflexivity.
  assert (E : sensor i = Filled ramp) by reflexivity.
  assert (L : List.length ramp = 768%nat) by reflexivity.
  assert (T : (time_text i == Camera.timestamp (camera (main_window 0)))%Q)
    by reflexivity.
  refine (conj X (conj R (conj S (conj E (conj L (conj T _)))))).
  exact (proj1 (proj2 (proj2 (proj2 (proj2
           (stalled_clock_ends_the_loop (main_window 0) i [] ramp
              X R S E L T)))))).
Defined.

(** ** Keys, releases and the two flags *)

Lemma land_255 (k : Z) : Z.land k 255 = k mod 256.
Proof.
  change 255 with (Z.ones 8). rewrite Z.land_ones by lia. reflexivity.
Qed.

(** Neither flag is ever cleared by a callback. *)
Lemma call_flags (cb : action) (s : state) :
  (is_exit_requested s = true -> is_exit_requested (call cb s) = true)
  /\ (queue_save_snapshot s = true -> queue_save_snapshot (call cb s) = true).
Proof.
  destruct cb; simpl; auto.
Qed.

Lemma click_loop_flags (bs : list Button.t) (x y : Z) (s : state) :
  (is_exit_requested s = true ->
   is_exit_requested (click_loop call bs x y s) = true)
  /\ (queue_save_snapshot s = true ->
      queue_save_snapshot (click_loop call bs x y s) = true).
Proof.
  revert s. induction bs as [|b bs IH]; intro s; simpl; [auto|].
  destruct (hit b x y); [|apply IH].
  destruct (call_flags (Button.callback b) s) as [A B].
  destruct (IH (call (Button.callback b) s)) as [A' B']. auto.
Qed.

Lemma click_loop_sets_flag (bs : list Button.t) (x y : Z) (s : state)
    (b : Button.t) :
  In b bs -> hit b x y = true ->
  (Button.callback b = Exit ->
   is_exit_requested (click_loop call bs x y s) = true)
  /\ (Button.callback b = QueueSaveSnapshot ->
      queue_save_snapshot (click_loop call bs x y s) = true).
Proof.
  revert s. induction bs as [|b' bs IH]; intros s Hin H;
    [destruct Hin|destruct Hin as [Hin|Hin]].
  - subst b'. simpl. rewrite H.
    destruct (click_loop_flags bs x y (call (Button.callback b) s)) as [A B].
    split; intro E; [apply A|apply B]; rewrite E; reflexivity.
  - simpl. apply IH; assumption.
Qed.

Lemma click_same_buttons (s : state) (ev : Z * Z * Z) :
  buttons (__process_click_input s (fst (fst ev)) (snd (fst ev)) (snd ev))
  = buttons s.
Proof.
  unfold __process_click_input.
  destruct (negb (fst (fst ev) =? EVENT_LBUTTONUP)); [reflexivity|].
  apply click_loop_same_display.
Qed.

Lemma clicks_flags (evs : list (Z * Z * Z)) (s : state) :
  let s' :=
    fold_left (fun s ev => __process_click_input s (fst (fst ev))
                             (snd (fst ev)) (snd ev)) evs s in
  (is_exit_requested s = true -> is_exit_requested s' = true)
  /\ (queue_save_snapshot s = true -> queue_save_snapshot s' = true)
  /\ buttons s' = buttons s.
Proof.
  revert s. induction evs as [|ev evs IH]; intro s; simpl; [auto|].
  destruct (IH (__process_click_input s (fst (fst ev)) (snd (fst ev))
                  (snd ev))) as (A & B & C).
  rewrite click_same_buttons in C.
  assert (F : (is_exit_requested s = true ->
               is_exit_requested
                 (__process_click_input s (fst (fst ev)) (snd (fst ev))
                    (snd ev)) = true)
              /\ (queue_save_snapshot s = true ->
                  queue_save_snapshot
                    (__process_click_input s (fst (fst ev)) (snd (fst ev))
                       (snd ev)) = true)).
  { unfold __process_click_input.
    destruct (negb (fst (fst ev) =? EVENT_LBUTTONUP)); [auto|].
    apply click_loop_flags. }
  destruct F as [F1 F2]. auto.
Qed.

Lemma clicks_set_flag (evs : list (Z * Z * Z)) (s : state) (x y : Z)
    (b : Button.t) :
  In (EVENT_LBUTTONUP, x, y) evs -> In b (buttons s) -> hit b x y = true ->
  let s' :=
    fold_left (fun s ev => __process_click_input s (fst (fst ev))
                             (snd (fst ev)) (snd ev)) evs s in
  (Button.callback b = Exit -> is_exit_requested s' = true)
  /\ (Button.callback b = QueueSaveSnapshot ->
      queue_save_snapshot s' = true).
Proof.
  revert s. induction evs as [|ev evs IH]; intros s Hin Hb H;
    [destruct Hin|destruct Hin as [Hin|Hin]].
  - subst ev. cbn [fold_left fst snd].
    destruct (clicks_flags evs
                (__process_click_input s EVENT_LBUTTONUP x y)) as (A & B & _).
    unfold __process_click_input in *. cbn [negb Z.eqb EVENT_LBUTTONUP] in *.
    change (negb (4 =? 4)) with false in *. cbv iota in *.
    destruct (click_loop_sets_flag (buttons s) x y s b Hb H) as [E Q].
    split; intro C; [apply A, E, C|apply B, Q, C].
  - cbn [fold_left]. apply IH; [assumption| |assumption].
    now rewrite click_same_buttons.
Qed.

(** X7: [__process_events] tests only the low byte of what [waitKey]
    returns: every key code congruent to 27 modulo 256 requests the exit,
    whatever the pointer did, and with no pointer events the exit flag after
    the call is the flag before or that test; so -1 (no key pressed) never
    requests it. *)
Theorem escape_is_read_from_the_low_byte :
  forall (self : state) (evs : list (Z * Z * Z)) (k : Z),
    (k mod 256 = 27 ->
     is_exit_requested (__process_events self evs k) = true)
    /\ is_exit_requested (__process_events self [] k)
       = is_exit_requested self || (k mod 256 =? 27)
    /\ is_exit_requested (__process_events self [] (-1))
       = is_exit_requested self
    /\ is_exit_requested (__process_events self [] (27 + 256 * 4096)) = true.
Proof.
  intros self evs k. unfold __process_events. rewrite !land_255.
  split; [|split; [|split]].
  - intros ->. reflexivity.
  - simpl. destruct (k mod 256 =? 27); simpl.
    + now rewrite orb_true_r.
    + now rewrite orb_false_r.
  - reflexivity.
  - reflexivity.
Qed.

(** The key code 283 = 27 + 256 after a release on Colormap. *)
Lemma escape_is_read_from_the_low_byte_witness :
  283 mod 256 = 27
  /\ is_exit_requested
       (__process_events (main_window 0) [(EVENT_LBUTTONUP, 100, 560)] 283)
     = true.
Proof.
  assert (H : 283 mod 256 = 27) by reflexivity.
  refine (conj H _).
  exact (proj1 (escape_is_read_from_the_low_byte (main_window 0)
                  [(EVENT_LBUTTONUP, 100, 560)] 283) H).
Defined.

Lemma events_flags :
  forall (self : state) (evs : list (Z * Z * Z)) (k : Z),
    let self' := __process_events self evs k in
    (is_exit_requested self = true -> is_exit_requested self' = true)
    /\ (queue_save_snapshot self = true -> queue_save_snapshot self' = true)
    /\ buttons self' = buttons self
    /\ (forall x y b,
          In (EVENT_LBUTTONUP, x, y) evs -> In b (buttons self) ->
          hit b x y = true ->
          (Button.callback b = Exit -> is_exit_requested self' = true)
          /\ (Button.callback b = QueueSaveSnapshot ->
              queue_save_snapshot self' = true)).
Proof.
  intros self evs k self'.
  destruct (clicks_flags evs self) as (A & B & C).
  unfold self', __process_events.
  split; [|split; [|split]].
  - intro H. destruct (Z.land k 255 =? 27); [reflexivity|]. now apply A.
  - intro H. destruct (Z.land k 255 =? 27); simpl; now apply B.
  - destruct (Z.land k 255 =? 27); simpl; exact C.
  - intros x y b He Hb Hh.
    destruct (clicks_set_flag evs self x y b He Hb Hh) as [E Q].
    split; intro Cb.
    + destruct (Z.land k 255 =? 27); [reflexivity|]. now apply E.
    + destruct (Z.land k 255 =? 27); simpl; now apply Q.
Qed.

(** X8: the events of a tick only raise the two flags, never clear them:
    a flag set before [__process_events] is still set after it, the list of
    buttons is unchanged, and a release strictly inside a button bound to
    the exit (or to the save) leaves the exit flag (or the queued-save flag)
    set at the end of the tick, whatever other events and key follow. *)
Theorem releases_raise_the_flags :
  forall (self : state) (evs : list (Z * Z * Z)) (k : Z),
    let self' := __process_events self evs k in
    (is_exit_requested self = true -> is_exit_requested self' = true)
    /\ (queue_save_snapshot self = true -> queue_save_snapshot self' = true)
    /\ buttons self' = buttons self
    /\ (forall x y b,
          In (EVENT_LBUTTONUP, x, y) evs -> In b (buttons self) ->
          hit b x y = true ->
          (Button.callback b = Exit -> is_exit_requested self' = true)
          /\ (Button.callback b = QueueSaveSnapshot ->
              queue_save_snapshot self' = true)).
Proof.
  exact events_flags.
Qed.

(** A release on Save followed by ones on Colormap, in the window of
    [main]. *)
Lemma releases_raise_the_flags_witness :
  let evs := [release_on_save; (EVENT_LBUTTONUP, 100, 560);
              (EVENT_LBUTTONUP, 100, 560)] in
  let b := Button.mk "Save" (0, 550) (80, 600) QueueSaveSnapshot in
  In (EVENT_LBUTTONUP, 40, 575) evs /\ In b (buttons (main_window 0))
  /\ hit b 40 575 = true /\ Button.callback b = QueueSaveSnapshot
  /\ queue_save_snapshot (__process_events (main_window 0) evs (-1)) = true.
Proof.
  intros evs b.
  assert (He : In (EVENT_LBUTTONUP, 40, 575) evs) by (left; reflexivity).
  assert (Hb : In b (buttons (main_window 0))) by (left; reflexivity).
  assert (Hh : hit b 40 575 = true) by reflexivity.
  assert (Cb : Button.callback b = QueueSaveSnapshot) by reflexivity.
  refine (conj He (conj Hb (conj Hh (conj Cb _)))).
  exact (proj2 (proj2 (proj2 (proj2
           (releases_raise_the_flags (main_window 0) evs (-1))))
           40 575 b He Hb Hh) Cb).
Defined.

(** ** Ticks and runs *)

Lemma tick_shows_one (self : state) (i : tick_input) (cam : Camera.state)
    (img : picture) :
  Camera.generate_frame_image (camera self) (sensor i) (time_text i)
    (time_stamp i) = (cam, Ok img) ->
  List.length (shown (fst (tick self i))) = S (List.length (shown self)).
Proof.
  intro G. destruct (tick_display self i cam img G) as (_ & _ & _ & Sh & _).
  rewrite Sh. unfold __update_window.
  assert (E : forall s : state,
             List.length (shown (with_shown (shown s ++ [current_image s]) s))
             = S (List.length (shown s))).
  { intro s. simpl. rewrite length_app. simpl. lia. }
  destruct (queue_save_snapshot self).
  - cbn [snapshot_saved_at __save_snapshot with_snapshot_saved_at
           with_queue_save_snapshot with_written].
    destruct (Qltb (monotonic_window i - monotonic_save i) 1);
      rewrite E; reflexivity.
  - rewrite draw_buttons_generated.
    cbn [snapshot_saved_at with_current_image generated with_camera].
    destruct (snapshot_saved_at self) as [t|]; [|rewrite E; reflexivity].
    destruct (Qltb (monotonic_window i - t) 1); rewrite E; reflexivity.
Qed.

(** X9: the exit is honoured at the next test of the loop condition, after
    the tick in flight has run to its end.  When a frame is generated and
    the key of that tick is Escape, or a release falls strictly inside a
    button bound to the exit, the picture of the tick is still shown, and
    [start] then returns without reading any further input. *)
Theorem exit_ends_the_loop_after_the_tick :
  forall (self : state) (i : tick_input) (rest : list tick_input)
         (cam : Camera.state) (img : picture),
    is_exit_requested self = false ->
    Camera.generate_frame_image (camera self) (sensor i) (time_text i)
      (time_stamp i) = (cam, Ok img) ->
    (key i mod 256 = 27
     \/ exists x y b,
          In (EVENT_LBUTTONUP, x, y) (pointer i) /\ In b (buttons self)
          /\ hit b x y = true /\ Button.callback b = Exit) ->
    start self (i :: rest) = (fst (tick self i), Returned)
    /\ is_exit_requested (fst (tick self i)) = true
    /\ List.length (shown (fst (tick self i)))
       = S (List.length (shown self)).
Proof.
  intros self i rest cam img X G Why.
  assert (Q : is_exit_requested (fst (tick self i)) = true).
  { rewrite (tick_generated self i cam img G). cbn [fst].
    destruct Why as [K|(x & y & b & He & Hb & Hh & Cb)].
    - unfold __process_events. rewrite land_255, K. reflexivity.
    - match goal with
      | |- is_exit_requested (__process_events ?s _ _) = true =>
          assert (B : buttons s = buttons self)
      end.
      { unfold __update_window.
        destruct (queue_save_snapshot self).
        - cbn [snapshot_saved_at __save_snapshot with_snapshot_saved_at
                 with_queue_save_snapshot with_written].
          destruct (Qltb (monotonic_window i - monotonic_save i) 1);
            reflexivity.
        - rewrite draw_buttons_generated.
          cbn [snapshot_saved_at with_current_image generated with_camera].
          destruct (snapshot_saved_at self) as [t|]; [|reflexivity].
          destruct (Qltb (monotonic_window i - t) 1); reflexivity. }
      rewrite <- B in Hb.
      exact (proj1 (proj2 (proj2 (proj2
               (events_flags _ (pointer i) (key i))))
               x y b He Hb Hh) Cb). }
  split; [|split; [exact Q|exact (tick_shows_one self i cam img G)]].
  cbn [start]. rewrite X.
  pose proof (tick_generated self i cam img G) as T.
  destruct (tick self i) as [s r] eqn:E. cbn [fst] in Q.
  injection T as _ ->. cbn [fst].
  destruct rest; cbn [start]; rewrite Q; reflexivity.
Qed.

(** Escape pressed during the first tick of the window of [main]. *)
Lemma exit_ends_the_loop_after_the_tick_witness :
  let self := main_window 0 in
  let i := with_events [] 27 (ramp_tick 1 []) in
  let g :=
    Camera.generate_frame_image (camera self) (sensor i) (time_text i)
      (time_stamp i) in
  is_exit_requested self = false
  /\ g = (fst g, Ok (the_picture (snd g)))
  /\ key i mod 256 = 27
  /\ snd (start self [i; ramp_tick 2 []; ramp_tick 3 []]) = Returned
  /\ List.length (shown (fst (tick self i))) = 1%nat.
Proof.
  intros self i g.
  assert (X : is_exit_requested self = false) by reflexivity.
  assert (G : g = (fst g, Ok (the_picture (snd g))))
    by (vm_compute; reflexivity).
  assert (K : key i mod 256 = 27) by reflexivity.
  refine (conj X (conj G (conj K _))).
  destruct (exit_ends_the_loop_after_the_tick self i
              [ramp_tick 2 []; ramp_tick 3 []] (fst g) (the_picture (snd g))
              X G (or_introl K)) as (A & _ & C).
  split; [rewrite A; reflexivity|exact C].
Defined.

(** X10: the pointer events and the key of a tick have no effect on what
    that tick shows or writes: with other events and another key, the tick
    ends the same way, shows the same pictures, writes the same files and
    leaves the same picture and the same time of the last save.  What the
    operator does acts on the next tick at the earliest. *)
Theorem events_act_on_the_next_tick :
  forall (self : state) (i : tick_input) (evs : list (Z * Z * Z)) (k : Z),
    let a := tick self i in
    let b := tick self (with_events evs k i) in
    snd a = snd b
    /\ shown (fst a) = shown (fst b)
    /\ written (fst a) = written (fst b)
    /\ current_image (fst a) = current_image (fst b)
    /\ snapshot_saved_at (fst a) = snapshot_saved_at (fst b).
Proof.
  intros self i evs k a b.
  destruct (Camera.generate_frame_image (camera self) (sensor i)
              (time_text i) (time_stamp i)) as [cam [img|e]] eqn:G.
  - assert (G' : Camera.generate_frame_image (camera self)
                   (sensor (with_events evs k i))
                   (time_text (with_events evs k i))
                   (time_stamp (with_events evs k i)) = (cam, Ok img))
      by exact G.
    destruct (tick_display self i cam img G) as (A1 & A2 & A3 & A4 & _).
    destruct (tick_display self (with_events evs k i) cam img G')
      as (B1 & B2 & B3 & B4 & _).
    fold a in A1, A2, A3, A4. fold b in B1, B2, B3, B4.
    rewrite A1, A2, A3, A4, B1, B2, B3, B4.
    split; [|repeat split].
    unfold a, b. rewrite (tick_generated self i cam img G).
    rewrite (tick_generated self (with_events evs k i) cam img G').
    reflexivity.
  - unfold a, b, tick, try_body.
    cbn [sensor time_text time_stamp with_events]. rewrite G.
    destruct (exn_cls e); repeat split.
Qed.

(** X11: a tick whose frame generation raises a RuntimeError that carries
    the attribute [message = 'Too many retries'] is skipped whole: nothing
    is drawn, shown or written, a queued save stays queued, the pointer
    events and the key of that tick are never looked at, and the loop goes
    on with the next input from a window that differs only in the shared
    buffer of the camera. *)
Theorem retry_with_message_skips_the_tick :
  forall (self : state) (i : tick_input) (rest : list tick_input) (e : exn)
         (ws : list (nat * float64)),
    is_exit_requested self = false ->
    sensor i = Failed e ws ->
    exn_cls e = RuntimeError ->
    exn_message e = Some "Too many retries"%string ->
    let skipped :=
      with_camera
        (Camera.with_blank_image
           (write_all ws (Camera.blank_image (camera self))) (camera self))
        self in
    start self (i :: rest) = start skipped rest
    /\ same_display self skipped
    /\ queue_save_snapshot skipped = queue_save_snapshot self
    /\ is_exit_requested skipped = false.
Proof.
  intros self i rest e ws X E C M skipped.
  split; [|repeat split; exact X].
  cbn [start]. rewrite X. unfold tick, try_body, Camera.generate_frame_image.
  rewrite E. cbn [Camera.__pull_raw_image]. unfold Camera.pull_except.
  rewrite C. cbv zeta. rewrite C. unfold except_RuntimeError.
  rewrite M. reflexivity.
Qed.

(** A driver exception with the attribute, before two good ticks. *)
Lemma retry_with_message_skips_the_tick_witness :
  let e := mk_exn RuntimeError ["Too many retries"%string]
             (Some "Too many retries"%string) in
  let i := with_events [release_on_save] 27 (failing_tick 1 e) in
  is_exit_requested (main_window 0) = false
  /\ sensor i = Failed e []
  /\ exn_cls e = RuntimeError
  /\ exn_message e = Some "Too many retries"%string
  /\ snd (start (main_window 0) [i; ramp_tick 2 []]) = Running.
Proof.
  intros e i.
  assert (X : is_exit_requested (main_window 0) = false) by reflexivity.
  assert (E : sensor i = Failed e []) by reflexivity.
  assert (C : exn_cls e = RuntimeError) by reflexivity.
  assert (M : exn_message e = Some "Too many retries"%string) by reflexivity.
  refine (conj X (conj E (conj C (conj M _)))).
  rewrite (proj1 (retry_with_message_skips_the_tick (main_window 0) i
                    [ramp_tick 2 []] e [] X E C M)).
  vm_compute. reflexivity.
Defined.

Lemma camera_before_events (self : state) (i : tick_input)
    (cam : Camera.state) (img : picture) :
  camera
    (__update_window
       (if queue_save_snapshot self
        then __save_snapshot (generated self cam img) (save_stamp i)
               (monotonic_save i)
        else __draw_buttons (generated self cam img))
       (monotonic_window i))
  = cam.
Proof.
  unfold __update_window. destruct (queue_save_snapshot self).
  - cbn [snapshot_saved_at __save_snapshot with_snapshot_saved_at
           with_queue_save_snapshot with_written].
    destruct (Qltb (monotonic_window i - monotonic_save i) 1); reflexivity.
  - rewrite draw_buttons_generated.
    cbn [snapshot_saved_at with_current_image generated with_camera].
    destruct (snapshot_saved_at self) as [t|]; [|reflexivity].
    destruct (Qltb (monotonic_window i - t) 1); reflexivity.
Qed.

(** A tick that generates a frame leaves the camera as the generation did,
    up to the selections the callbacks moved. *)
Lemma tick_camera (self : state) (i : tick_input) (cam : Camera.state)
    (img : picture) :
  Camera.generate_frame_image (camera self) (sensor i) (time_text i)
    (time_stamp i) = (cam, Ok img) ->
  snd (tick self i) = Ok tt
  /\ same_readings cam (camera (fst (tick self i)))
  /\ (in_range cam -> in_range (camera (fst (tick self i)))).
Proof.
  intro G. rewrite (tick_generated self i cam img G). cbn [fst snd].
  split; [reflexivity|].
  match goal with
  | |- same_readings _ (camera (__process_events ?s ?evs ?k)) /\ _ =>
      pose proof (process_events_camera evs k s) as P
  end.
  rewrite camera_before_events in P. exact P.
Qed.

Lemma tick_absorbed (self : state) (i : tick_input) :
  in_range (camera self) -> sized (camera self) ->
  absorbed (sensor i) ->
  ~ (time_text i == Camera.timestamp (camera self))%Q ->
  snd (tick self i) = Ok tt
  /\ in_range (camera (fst (tick self i)))
  /\ sized (camera (fst (tick self i)))
  /\ Camera.timestamp (camera (fst (tick self i))) = time_stamp i
  /\ List.length (shown (fst (tick self i)))
     = S (List.length (shown self)).
Proof.
  intros R S A T.
  assert (G : exists cam img,
             Camera.generate_frame_image (camera self) (sensor i)
               (time_text i) (time_stamp i) = (cam, Ok img)
             /\ in_range cam /\ sized cam
             /\ Camera.timestamp cam = time_stamp i).
  { destruct (sensor i) as [frame|e ws] eqn:E; [|contradiction A].
    destruct (generate_filled (camera self) frame (time_text i)
                (time_stamp i) R S A T)
      as (mn & mx & cmap & label & p & _ & _ & _ & _ & _ & G).
    eexists _, _. split; [exact G|].
    split; [exact R|]. split; [exact A|reflexivity]. }
  destruct G as (cam & img & G & R' & S' & T').
  destruct (tick_camera self i cam img G) as (Ok' & (B & _ & _ & Ts & _) & Rk).
  split; [exact Ok'|]. split; [now apply Rk|].
  split; [unfold sized; now rewrite B|].
  split; [now rewrite Ts|exact (tick_shows_one self i cam img G)].
Qed.

Lemma steady_run (inputs : list tick_input) (self : state) :
  in_range (camera self) -> sized (camera self) ->
  steady (Camera.timestamp (camera self)) inputs ->
  (snd (start self inputs) = Returned \/ snd (start self inputs) = Running)
  /\ (snd (start self inputs) = Running ->
      List.length (shown (fst (start self inputs)))
      = (List.length (shown self) + List.length inputs)%nat).
Proof.
  revert self. induction inputs as [|i rest IH]; intros self R S St.
  - cbn [start]. destruct (is_exit_requested self); cbn [fst snd].
    + split; [now left|discriminate].
    + split; [now right|]. intros _. cbn. lia.
  - cbn [start]. destruct (is_exit_requested self); cbn [fst snd].
    + split; [now left|discriminate].
    + destruct St as (A & T & St').
      destruct (tick_absorbed self i R S A T) as (Ok' & R1 & S1 & T1 & Sh).
      destruct (tick self i) as [s r]. cbn [fst snd] in *. subst r.
      rewrite <- T1 in St'.
      destruct (IH s R1 S1 St') as [E L].
      split; [exact E|]. intro Run. rewrite (L Run), Sh. cbn. lia.
Qed.

(** X13: the loop does not raise while the driver delivers and the clock
    moves.  From a window whose selections are inside their catalogues and
    whose buffer has 768 entries, over inputs in which every sensor outcome
    is a whole frame and every clock reading for the frame rate differs
    from the time stamp of the tick before, [start] ends by returning on a
    requested exit or is still running with one picture shown per input;
    whatever the frames hold and whatever the operator presses or clicks,
    no exception leaves it. *)
Theorem steady_runs_never_raise :
  forall (inputs : list tick_input) (self : state),
    in_range (camera self) -> sized (camera self) ->
    steady (Camera.timestamp (camera self)) inputs ->
    (forall e, snd (start self inputs) <> Raised e)
    /\ (snd (start self inputs) = Running ->
        List.length (shown (fst (start self inputs)))
        = (List.length (shown self) + List.length inputs)%nat).
Proof.
  intros inputs self R S St.
  destruct (steady_run inputs self R S St) as [[E|E] L].
  - split; [intros e H; rewrite E in H; discriminate H|exact L].
  - split; [intros e H; rewrite E in H; discriminate H|exact L].
Qed.

(** The window of [main] over the ramp frame with a release on Save, the
    room frame with releases on two buttons, and a frame of NaN samples. *)
Lemma steady_runs_never_raise_witness :
  let inputs :=
    [ramp_tick 1 [release_on_save];
     mk_input (Filled room) 2 2 "2024-05-01_12-00-02" 2 2
       [(EVENT_LBUTTONUP, 100, 560); (EVENT_LBUTTONUP, 300, 560)] (-1);
     mk_input (Filled (repeat NaN 768)) 3 3 "2024-05-01_12-00-03" 3 3 []
       (-1)] in
  let self := main_window 0 in
  in_range (camera self) /\ sized (camera self)
  /\ steady (Camera.timestamp (camera self)) inputs
  /\ (forall e, snd (start self inputs) <> Raised e)
  /\ List.length (shown (fst (start self inputs))) = 3%nat.
Proof.
  intros inputs self.
  assert (R : in_range (camera self)) by (unfold in_range; simpl; lia).
  assert (S : sized (camera self)) by reflexivity.
  assert (St : steady (Camera.timestamp (camera self)) inputs).
  { cbn [steady inputs]. repeat split;
      try reflexivity; intro H; discriminate H. }
  refine (conj R (conj S (conj St _))).
  destruct (steady_runs_never_raise inputs self R S St) as [N L].
  split; [exact N|]. apply L. vm_compute. reflexivity.
Defined.

(** ** More on the rescale *)

Lemma map_constant {A B} (f : A -> B) (c : B) (l : list A) :
  (forall a, f a = c) -> map f l = repeat c (List.length l).
Proof.
  intro H. induction l as [|a l IH]; simpl; [reflexivity|].
  now rewrite H, IH.
Qed.

Lemma rescaled_with_nan_extremes (f : list float64) :
  Camera.rescaled f NaN NaN = repeat NaN (List.length f).
Proof.
  rewrite rescaled_quotients. apply map_constant.
  intros [s|[|]| |s m e]; reflexivity.
Qed.

(** X14: one NaN sample blanks the whole frame.  When a delivered frame of
    768 samples holds a NaN anywhere, [__pull_raw_image] records NaN as both
    temp_min and temp_max, every quotient of the rescale is NaN, and every
    pixel of the grid it returns is 0; nothing is raised. *)
Theorem nan_sample_blanks_the_frame :
  forall (cam : Camera.state) (frame : list float64),
    sized cam -> List.length frame = 768%nat -> In NaN frame ->
    Camera.__pull_raw_image cam (Filled frame)
    = (after_read cam frame NaN NaN, Ok (U8Grid (repeat 0 768)))
    /\ Camera.rescaled frame NaN NaN = repeat NaN 768.
Proof.
  intros cam frame S L N.
  destruct (pull_filled cam frame S L) as (mn & mx & Hmn & Hmx & P).
  destruct (np_min_max_of_nan frame N) as [Emn Emx].
  rewrite Emn in Hmn. rewrite Emx in Hmx.
  injection Hmn as <-. injection Hmx as <-.
  rewrite P, rescaled_with_nan_extremes, L, map_repeat. split; reflexivity.
Qed.

(** The ramp frame with its last sample replaced by NaN. *)
Lemma nan_sample_blanks_the_frame_witness :
  let frame := firstn 767 ramp ++ [NaN] in
  sized (Camera.init 0) /\ List.length frame = 768%nat /\ In NaN frame
  /\ snd (Camera.__pull_raw_image (Camera.init 0) (Filled frame))
     = Ok (U8Grid (repeat 0 768)).
Proof.
  intro frame.
  assert (S : sized (Camera.init 0)) by reflexivity.
  assert (L : List.length frame = 768%nat) by reflexivity.
  assert (N : In NaN frame) by (apply in_or_app; right; left; reflexivity).
  refine (conj S (conj L (conj N _))).
  rewrite (proj1 (nan_sample_blanks_the_frame (Camera.init 0) frame S L N)).
  reflexivity.
Defined.

(** X16: [__temps_to_rescaled_uints] returns a grid of exactly 768 pixels
    for every array of 768 samples, whatever the samples and the two
    extremes it is given (equal, reversed, NaN or infinite), and raises
    ValueError, from the assignment of the shape (24, 32), for an array of
    any other size. *)
Theorem rescale_needs_768_samples :
  forall (f : list float64) (Tmin Tmax : float64),
    (List.length f = 768%nat ->
       exists px,
         Camera.__temps_to_rescaled_uints f Tmin Tmax = Ok px
         /\ List.length px = 768%nat)
    /\ (List.length f <> 768%nat ->
          exists e,
            Camera.__temps_to_rescaled_uints f Tmin Tmax = Raise e
            /\ exn_cls e = ValueError).
Proof.
  intros f Tmin Tmax. split; intro H.
  - rewrite (temps_to_rescaled_uints_768 f Tmin Tmax H).
    eexists. split; [reflexivity|].
    now rewrite length_map, rescaled_length.
  - rewrite (temps_to_rescaled_uints_other f Tmin Tmax H).
    eexists. split; reflexivity.
Qed.

(** Three samples only. *)
Lemma rescale_needs_768_samples_witness :
  List.length [Fin 1; Fin 2; Fin 3] <> 768%nat
  /\ exists e,
       Camera.__temps_to_rescaled_uints [Fin 1; Fin 2; Fin 3] (Fin 1) (Fin 3)
       = Raise e
       /\ exn_cls e = ValueError.
Proof.
  assert (H : List.length [Fin 1; Fin 2; Fin 3] <> 768%nat)
    by (intro E; discriminate E).
  refine (conj H _).
  exact (proj2 (rescale_needs_768_samples [Fin 1; Fin 2; Fin 3] (Fin 1)
                  (Fin 3)) H).
Defined.

(** ** The processing pipeline *)

(** X17: whatever the selections, a picture [__process_raw_image] returns
    is made from the array it was given, with the colormap of the current
    selection applied exactly once, exactly one horizontal flip as the last
    step before the filter, the bilateral filter applied once when smoothing
    is on and not at all when it is off, and no text or rectangle drawn. *)
Theorem processing_colours_and_flips_once :
  forall (cam : Camera.state) (a : array) (p : picture),
    Camera.__process_raw_image cam a = Ok p ->
    source p = a
    /\ (exists cmap,
          Camera.__colormap cam = Ok cmap
          /\ filter is_colormap (ops p) = [ApplyColorMap cmap])
    /\ filter is_flip (ops p) = [Flip 1]
    /\ filter is_filter (ops p) = smoothing cam
    /\ (exists before, ops p = before ++ Flip 1 :: smoothing cam)
    /\ count is_text p = 0%nat
    /\ forallb frame_op (ops p) = true.
Proof.
  intros cam a p H.
  pose proof (process_raw_image_ops _ _ _ H) as [Src Fr].
  pose proof (process_has_no_text _ _ _ H) as Tx.
  split; [exact Src|].
  assert (Rest :
            (exists cmap,
               Camera.__colormap cam = Ok cmap
               /\ filter is_colormap (ops p) = [ApplyColorMap cmap])
            /\ filter is_flip (ops p) = [Flip 1]
            /\ filter is_filter (ops p) = smoothing cam
            /\ (exists before, ops p = before ++ Flip 1 :: smoothing cam)).
  { destruct (process_shapes cam a p H) as (px & cmap & _ & C & _ & O).
    split; [exists cmap; split; [exact C|]|].
    - destruct O as [O|[O|[ip O]]]; rewrite O; unfold smoothing;
        destruct (Camera.use_smoothing_filter cam); reflexivity.
    - destruct O as [O|[O|[ip O]]]; rewrite O;
        (split; [unfold smoothing;
                 destruct (Camera.use_smoothing_filter cam); reflexivity|]);
        (split; [unfold smoothing;
                 destruct (Camera.use_smoothing_filter cam); reflexivity|]);
        first [eexists (_ :: _ :: nil); reflexivity
              |eexists (_ :: _ :: _ :: nil); reflexivity
              |eexists (_ :: nil); reflexivity]. }
  destruct Rest as (A & B & C & D).
  split; [exact A|]. split; [exact B|]. split; [exact C|].
  split; [exact D|]. split; [|exact Fr].
  unfold count. now rewrite Tx.
Qed.

(** The camera at start-up switched to the mixed selection. *)
Lemma processing_colours_and_flips_once_witness :
  let cam := Camera.with_interpolation_index 6 (Camera.init 0) in
  let p := mk_picture (U8Grid [])
             [Zoom 10; ApplyColorMap "jet"; Resize 800 600 2; Flip 1;
              BilateralFilter 15 80 80] in
  Camera.__process_raw_image cam (U8Grid []) = Ok p
  /\ filter is_flip (ops p) = [Flip 1].
Proof.
  intros cam p.
  assert (H : Camera.__process_raw_image cam (U8Grid []) = Ok p)
    by reflexivity.
  refine (conj H _).
  exact (proj1 (proj2 (proj2
           (processing_colours_and_flips_once cam (U8Grid []) p H)))).
Defined.

(** ** The buttons of the window *)

(** X18: the whole pointer behaviour of the window [main] opens.  Events
    other than the release of the left button leave the window as it is; a
    release invokes exactly the actions of [click_map]: Save for 0 < x < 80,
    Colormap for 90 < x < 220, Interpolation for 230 < x < 380 and Exit for
    390 < x < 460, each only for 550 < y < 600, and nothing on the borders
    of the rectangles, in the gaps between them or anywhere else; never more
    than one action. *)
Theorem releases_follow_the_click_map :
  forall (self : state) (event x y : Z),
    (event <> EVENT_LBUTTONUP -> __process_click_input self event x y = self)
    /\ (event <> EVENT_LBUTTONUP -> invoked (buttons self) event x y = [])
    /\ invoked default_buttons EVENT_LBUTTONUP x y = click_map x y
    /\ (List.length (invoked default_buttons EVENT_LBUTTONUP x y) <= 1)%nat
    /\ (y <= 550 \/ 600 <= y ->
        invoked default_buttons EVENT_LBUTTONUP x y = []).
Proof.
  intros self event x y.
  assert (M : invoked default_buttons EVENT_LBUTTONUP x y = click_map x y).
  { rewrite invoked_filter. unfold default_buttons, click_map, hit.
    cbn -[Z.ltb Z.gtb]. rewrite !Z.gtb_ltb.
    repeat (match goal with
            | |- context [?a <? ?b] => destruct (Z.ltb_spec a b)
            end;
            try (exfalso; lia); cbn -[Z.ltb]).
    all: reflexivity. }
  split; [|split; [|split; [exact M|split]]].
  - intro N. unfold __process_click_input.
    apply Z.eqb_neq in N. now rewrite N.
  - intro N. unfold invoked. apply Z.eqb_neq in N. now rewrite N.
  - rewrite M. unfold click_map.
    repeat match goal with
           | |- context [if ?c then _ else _] => destruct c
           end; simpl; lia.
  - intro O. rewrite M. unfold click_map.
    replace ((550 <? y) && (y <? 600)) with false; [reflexivity|].
    symmetry. apply andb_false_iff.
    destruct O; [left; apply Z.ltb_ge|right; apply Z.ltb_ge]; lia.
Qed.

(** A move of the pointer over the Save button. *)
Lemma releases_follow_the_click_map_witness :
  0 <> EVENT_LBUTTONUP
  /\ __process_click_input (main_window 0) 0 40 575 = main_window 0.
Proof.
  assert (N : 0 <> EVENT_LBUTTONUP) by (intro H; discriminate H).
  refine (conj N _).
  exact (proj1 (releases_follow_the_click_map (main_window 0) 0 40 575) N).
Defined.

(** ** When files are written *)

Lemma click_loop_keeps_unqueued (bs : list Button.t) (x y : Z) (s : state) :
  queue_save_snapshot s = false ->
  (forall b, In b bs -> hit b x y = true ->
             Button.callback b <> QueueSaveSnapshot) ->
  queue_save_snapshot (click_loop call bs x y s) = false.
Proof.
  revert s. induction bs as [|b bs IH]; intros s Q N; simpl; [exact Q|].
  destruct (hit b x y) eqn:H.
  - apply IH.
    + pose proof (N b (or_introl eq_refl) H) as C.
      destruct (Button.callback b); simpl; try exact Q. now contradiction C.
    + intros b' Hb'. apply N. now right.
  - apply IH; [exact Q|]. intros b' Hb'. apply N. now right.
Qed.

Lemma clicks_keep_unqueued (evs : list (Z * Z * Z)) (s : state) :
  queue_save_snapshot s = false ->
  no_save_release (buttons s) evs ->
  queue_save_snapshot
    (fold_left (fun s ev => __process_click_input s (fst (fst ev))
                              (snd (fst ev)) (snd ev)) evs s) = false.
Proof.
  revert s. induction evs as [|ev evs IH]; intros s Q N; [exact Q|].
  cbn [fold_left]. apply IH.
  - unfold __process_click_input.
    destruct (fst (fst ev) =? EVENT_LBUTTONUP) eqn:E; [|exact Q].
    cbn [negb]. apply click_loop_keeps_unqueued; [exact Q|].
    intros b Hb Hh. apply (N (snd (fst ev)) (snd ev) b); try assumption.
    left. apply Z.eqb_eq in E. rewrite <- E. now destruct ev as [[e x] y].
  - rewrite click_same_buttons. intros x y b He. apply N. now right.
Qed.

Lemma process_events_keep_unqueued (evs : list (Z * Z * Z)) (k : Z)
    (s : state) :
  queue_save_snapshot s = false ->
  no_save_release (buttons s) evs ->
  queue_save_snapshot (__process_events s evs k) = false.
Proof.
  intros Q N. unfold __process_events.
  pose proof (clicks_keep_unqueued evs s Q N) as F.
  destruct (Z.land k 255 =? 27); exact F.
Qed.

(** A tick that finds no save queued writes nothing, whether it raises or
    not, and leaves none queued when no release asks for one. *)
Lemma tick_unqueued (self : state) (i : tick_input) :
  queue_save_snapshot self = false ->
  written (fst (tick self i)) = written self
  /\ buttons (fst (tick self i)) = buttons self
  /\ (no_save_release (buttons self) (pointer i) ->
      queue_save_snapshot (fst (tick self i)) = false).
Proof.
  intro Q.
  destruct (Camera.generate_frame_image (camera self) (sensor i)
              (time_text i) (time_stamp i)) as [cam [img|e]] eqn:G.
  - destruct (tick_display self i cam img G) as (_ & _ & W & _ & B).
    rewrite W, B, (tick_generated self i cam img G), Q.
    rewrite draw_buttons_generated. cbn [fst].
    assert (U : forall s now,
               written (__update_window s now) = written s
               /\ buttons (__update_window s now) = buttons s
               /\ queue_save_snapshot (__update_window s now)
                  = queue_save_snapshot s).
    { intros s now. unfold __update_window.
      destruct (snapshot_saved_at s) as [t|]; [|repeat split].
      destruct (Qltb (now - t) 1); repeat split. }
    match goal with
    | |- context [__update_window ?s ?now] =>
        destruct (U s now) as (U1 & U2 & U3)
    end.
    rewrite U1, U2. split; [reflexivity|]. split; [reflexivity|].
    intro N. apply process_events_keep_unqueued.
    + rewrite U3. exact Q.
    + rewrite U2. exact N.
  - unfold tick, try_body. rewrite G.
    destruct (exn_cls e); cbn [fst]; repeat split; intros _; exact Q.
Qed.

Lemma run_unqueued :
  forall (inputs : list tick_input) (self : state),
    queue_save_snapshot self = false ->
    (forall i, In i inputs -> no_save_release (buttons self) (pointer i)) ->
    written (fst (start self inputs)) = written self
    /\ queue_save_snapshot (fst (start self inputs)) = false.
Proof.
  induction inputs as [|i rest IH]; intros self Q N.
  - cbn [start]. destruct (is_exit_requested self); split; assumption || reflexivity.
  - cbn [start]. destruct (is_exit_requested self);
      [split; assumption || reflexivity|].
    destruct (tick_unqueued self i Q) as (W & B & K).
    pose proof (K (N i (or_introl eq_refl))) as Q'.
    destruct (tick self i) as [s [u|e]]; cbn [fst] in *.
    + destruct (IH s Q') as [W' Q''].
      * intros j Hj. rewrite B. apply N. now right.
      * rewrite W', W. split; [reflexivity|exact Q''].
    + split; [exact W|exact Q'].
Qed.

(** X19: the loop writes no file unless a save was asked for.  From a
    window with no save queued, over any inputs (whatever the sensor and the
    clocks do, and however the run ends) in which no release falls strictly
    inside a button bound to the save, nothing is ever written and no save
    is queued at the end. *)
Theorem nothing_is_written_unasked :
  forall (inputs : list tick_input) (self : state),
    queue_save_snapshot self = false ->
    (forall i, In i inputs -> no_save_release (buttons self) (pointer i)) ->
    written (fst (start self inputs)) = written self
    /\ queue_save_snapshot (fst (start self inputs)) = false.
Proof.
  exact run_unqueued.
Qed.

(** The window of [main] over a frame with releases on Colormap and in a
    gap, and a tick that raises. *)
Lemma nothing_is_written_unasked_witness :
  let inputs :=
    [ramp_tick 1 [(EVENT_LBUTTONUP, 100, 560); (EVENT_LBUTTONUP, 85, 560)];
     failing_tick 2 too_many_retries] in
  queue_save_snapshot (main_window 0) = false
  /\ (forall i, In i inputs ->
                no_save_release (buttons (main_window 0)) (pointer i))
  /\ written (fst (start (main_window 0) inputs)) = [].
Proof.
  intro inputs.
  assert (Q : queue_save_snapshot (main_window 0) = false) by reflexivity.
  assert (N : forall i, In i inputs ->
                        no_save_release (buttons (main_window 0)) (pointer i)).
  { intros i [<-|[<-|[]]] x y b He Hb Hh; cbn in He.
    - destruct He as [He|[He|[]]]; injection He as <- <-;
        cbn in Hb; destruct Hb as [<-|[<-|[<-|[<-|[]]]]];
        try discriminate Hh; discriminate.
    - destruct He. }
  refine (conj Q (conj N _)).
  exact (proj1 (nothing_is_written_unasked inputs (main_window 0) Q N)).
Defined.

(** X20: one queued save gives one file.  When a tick finds the save
    queued and generates a frame, and no release of that tick or of any
    later input falls strictly inside a button bound to the save, the run
    writes exactly one file, holding the frame of that tick, however many
    ticks follow and however the run ends. *)
Theorem one_queued_save_writes_one_file :
  forall (self : state) (i : tick_input) (rest : list tick_input)
         (cam : Camera.state) (img : picture),
    is_exit_requested self = false ->
    queue_save_snapshot self = true ->
    Camera.generate_frame_image (camera self) (sensor i) (time_text i)
      (time_stamp i) = (cam, Ok img) ->
    (forall j, In j (i :: rest) ->
               no_save_release (buttons self) (pointer j)) ->
    written (fst (start self (i :: rest)))
    = written self
      ++ [(("./thermal_snapshots/" ++ "snapshot_" ++ save_stamp i ++ ".jpg")%string,
           Some img)]
    /\ queue_save_snapshot (fst (start self (i :: rest))) = false.
Proof.
  intros self i rest cam img X Q G N.
  cbn [start]. rewrite X.
  destruct (tick_display self i cam img G) as (_ & _ & W & _ & B).
  pose proof (tick_generated self i cam img G) as T.
  rewrite Q in W, B, T.
  assert (U : forall s now,
             written (__update_window s now) = written s
             /\ buttons (__update_window s now) = buttons s
             /\ queue_save_snapshot (__update_window s now)
                = queue_save_snapshot s).
  { intros s now. unfold __update_window.
    destruct (snapshot_saved_at s) as [t|]; [|repeat split].
    destruct (Qltb (now - t) 1); repeat split. }
  destruct (U (__save_snapshot (generated self cam img) (save_stamp i)
                 (monotonic_save i)) (monotonic_window i)) as (U1 & U2 & U3).
  assert (Q1 : queue_save_snapshot (fst (tick self i)) = false).
  { rewrite T. cbn [fst]. apply process_events_keep_unqueued.
    - rewrite U3. reflexivity.
    - rewrite U2. exact (N i (or_introl eq_refl)). }
  rewrite U1 in W. rewrite U2 in B.
  destruct (tick self i) as [s r]. cbn [fst] in *.
  injection T as _ ->.
  destruct (run_unqueued rest s Q1) as [W' Q'].
  { intros j Hj. change (buttons s = buttons self) in B. rewrite B.
    apply N. now right. }
  rewrite W', W. split; [reflexivity|exact Q'].
Qed.

(** A release on Save, then two quiet ticks. *)
Lemma one_queued_save_writes_one_file_witness :
  let self := fst (start (main_window 0) [ramp_tick 1 [release_on_save]]) in
  let i := ramp_tick 2 [] in
  let rest := [ramp_tick 3 []] in
  let g :=
    Camera.generate_frame_image (camera self) (sensor i) (time_text i)
      (time_stamp i) in
  is_exit_requested self = false
  /\ queue_save_snapshot self = true
  /\ g = (fst g, Ok (the_picture (snd g)))
  /\ (forall j, In j (i :: rest) ->
                no_save_release (buttons self) (pointer j))
  /\ List.length (written (fst (start self (i :: rest)))) = 1%nat.
Proof.
  intros self i rest g.
  assert (X : is_exit_requested self = false) by (vm_compute; reflexivity).
  assert (Q : queue_save_snapshot self = true) by (vm_compute; reflexivity).
  assert (G : g = (fst g, Ok (the_picture (snd g))))
    by (vm_compute; reflexivity).
  assert (N : forall j, In j (i :: rest) ->
                        no_save_release (buttons self) (pointer j)).
  { intros j [<-|[<-|[]]] x y b He; destruct He. }
  refine (conj X (conj Q (conj G (conj N _)))).
  rewrite (proj1 (one_queued_save_writes_one_file self i rest (fst g)
                    (the_picture (snd g)) X Q G N)).
  rewrite length_app. vm_compute. reflexivity.
Defined.
